(** * drfaddons.auth: credential location and JWT payload construction

    A shallow embedding of [src/drfaddons/auth.py] (Python 3 semantics):
    - [JSONWebTokenAuthenticationQS.get_authorization] and
      [JSONWebTokenAuthenticationQS.get_jwt_value], the credential locator;
    - [jwt_payload_handler], the payload builder.

    Python [str] values are sequences of code points, [bytes] values are
    sequences of octets, dictionaries are finite maps, and a raised exception
    is a constructor of the result type. *)

From Stdlib Require Import ZArith NArith Lia.
From Stdlib.Strings Require Import Byte Ascii String.
From stdpp Require Import base option list gmap strings.

Open Scope N_scope.

(** ** Python strings and byte strings *)

Abbreviation text := (list N).
Abbreviation bytes := (list byte).

(** An ASCII literal as a [str]. *)
Fixpoint txt (s : string) : text :=
  match s with
  | EmptyString => []
  | String a r => N_of_ascii a :: txt r
  end.

(** An ASCII literal as a [bytes]. *)
Definition lit (s : string) : bytes := list_byte_of_string s.

(** Exceptions the two functions can raise. *)
Inductive exn :=
| UnicodeEncodeError
| DjangoUnicodeDecodeError
| IndexError
| AuthenticationFailed (msg : text).

Inductive result (A : Type) :=
| Return (a : A)
| Raise (e : exn).
Arguments Return {A} a.
Arguments Raise {A} e.

(** Sequencing: the first exception raised ends the computation. *)
#[export] Instance result_bind : MBind result := fun A B k r =>
  match r with
  | Return a => k a
  | Raise e => Raise e
  end.

(** The parts of the Python runtime and of Django that the module calls and
    that are tables rather than algorithms: Unicode case mapping of [str]
    ([str.lower], [str.upper]) and the message catalogue ([ugettext]). *)
Class Runtime := {
  str_lower : text -> text;
  str_upper : text -> text;
  ugettext : text -> text;
  str_lower_empty : str_lower [] = []
}.

(** [str.encode('iso-8859-1')]: every code point must fit in one octet. *)
Definition encode_latin1 (s : text) : result bytes :=
  match mapM Byte.of_N s with
  | Some b => Return b
  | None => Raise UnicodeEncodeError
  end.

(** [bytes.lower()]: only the octets of ASCII upper-case letters change. *)
Definition byte_lower (b : byte) : byte :=
  let n := Byte.to_N b in
  if (65 <=? n) && (n <=? 90)
  then match Byte.of_N (n + 32) with Some b' => b' | None => b end
  else b.

Definition bytes_lower (s : bytes) : bytes := byte_lower <$> s.

(** [bytes.split()] without argument: runs of ASCII whitespace (space, tab,
    line feed, vertical tab, form feed, carriage return) separate the words;
    no empty word is produced. *)
Definition is_space (b : byte) : bool :=
  let n := Byte.to_N b in
  (n =? 32) || ((9 <=? n) && (n <=? 13)).

Fixpoint split_from (word : bytes) (s : bytes) : list bytes :=
  match s with
  | [] => match word with [] => [] | _ => [word] end
  | c :: s' =>
    if is_space c
    then match word with
         | [] => split_from [] s'
         | _ => word :: split_from [] s'
         end
    else split_from (word ++ [c]) s'
  end.

Definition bytes_split (s : bytes) : list bytes := split_from [] s.

(** [bytes.decode('utf-8', 'strict')] on the octet values: shortest form
    only, no surrogates, nothing above U+10FFFF. *)
Definition between (lo hi b : N) : bool := (lo <=? b) && (b <=? hi).

Definition cont (b : N) : bool := between 128 191 b.

Fixpoint utf8_decode (l : list N) : option text :=
  match l with
  | [] => Some []
  | b0 :: r =>
    if b0 <? 128 then cons b0 <$> utf8_decode r
    else if between 194 223 b0 then
      match r with
      | b1 :: r1 =>
        if cont b1
        then cons ((b0 - 192) * 64 + (b1 - 128)) <$> utf8_decode r1
        else None
      | _ => None
      end
    else if between 224 239 b0 then
      match r with
      | b1 :: b2 :: r2 =>
        if between (if b0 =? 224 then 160 else 128)
                   (if b0 =? 237 then 159 else 191) b1 && cont b2
        then cons ((b0 - 224) * 4096 + (b1 - 128) * 64 + (b2 - 128))
               <$> utf8_decode r2
        else None
      | _ => None
      end
    else if between 240 244 b0 then
      match r with
      | b1 :: b2 :: b3 :: r3 =>
        if between (if b0 =? 240 then 144 else 128)
                   (if b0 =? 244 then 143 else 191) b1 && cont b2 && cont b3
        then cons ((b0 - 240) * 262144 + (b1 - 128) * 4096
                   + (b2 - 128) * 64 + (b3 - 128))
               <$> utf8_decode r3
        else None
      | _ => None
      end
    else None
  end.

Definition bytes_decode_utf8 (s : bytes) : option text :=
  utf8_decode (Byte.to_N <$> s).

Module JSONWebTokenAuthenticationQS.

(** A value held by the request mappings, and an element of the token list:
    a [str] or a [bytes]. A body value of another type (a JSON number, list
    or object), on which line 68 raises [AttributeError], is outside this
    model. *)
Inductive strval :=
| Text (s : text)
| Bytes (b : bytes).

(** Truth value of a [str] or [bytes]: non-empty. *)
Definition truthy (v : strval) : bool :=
  match v with
  | Text [] | Bytes [] => false
  | _ => true
  end.

(** [a or b]. *)
Definition py_or (a b : strval) : strval := if truthy a then a else b.

(** [d.get(k, default)]. *)
Definition dict_get {V} (d : gmap text V) (k : text) (default : V) : V :=
  match d !! k with
  | Some v => v
  | None => default
  end.

(** The request: [request.data], [request.META], [request.COOKIES]. *)
Record Request := {
  data : gmap text strval;
  META : gmap text strval;
  COOKIES : gmap text text
}.

(** The class attributes read from the settings: [key] is [JWT_AUTH_KEY],
    [prefix] is [JWT_AUTH_HEADER_PREFIX], [cookie] is [JWT_AUTH_COOKIE]
    ([None] when unset). *)
Record Settings := {
  key : text;
  prefix : text;
  cookie : option text
}.

Section Locator.
Context `{RT : Runtime}.

(** [header_key = 'HTTP_' + key.upper()]. *)
Definition header_key (cfg : Settings) : text :=
  txt "HTTP_" ++ str_upper (key cfg).

(** The object selected on line 44, before any conversion. *)
Definition raw_authorization (cfg : Settings) (request : Request) : strval :=
  py_or (dict_get (data request) (key cfg) (Bytes []))
        (dict_get (META request) (header_key cfg) (Bytes [])).

(** Lines 46-48: a [str] is encoded with [HTTP_HEADER_ENCODING], a [bytes]
    is kept. *)
Definition to_bytes (auth : strval) : result bytes :=
  match auth with
  | Text s => encode_latin1 s
  | Bytes b => Return b
  end.

Definition get_authorization (cfg : Settings) (request : Request)
  : result bytes :=
  let auth := raw_authorization cfg request in
  to_bytes auth.

(** [x.lower()] on an element of the token list. *)
Definition lower (v : strval) : strval :=
  match v with
  | Text s => Text (str_lower s)
  | Bytes b => Bytes (bytes_lower b)
  end.

(** Django's [smart_text]: a [str] is returned as it is, a [bytes] is
    decoded as UTF-8. *)
Definition smart_text (v : strval) : result text :=
  match v with
  | Text s => Return s
  | Bytes b =>
    match bytes_decode_utf8 b with
    | Some s => Return s
    | None => Raise DjangoUnicodeDecodeError
    end
  end.

(** [l[i]]. *)
Definition index {A} (l : list A) (i : nat) : result A :=
  match l !! i with
  | Some x => Return x
  | None => Raise IndexError
  end.

Definition msg_no_credentials : text :=
  txt "Invalid Authorization header. No credentials provided.".

Definition msg_spaces : text :=
  txt "Invalid Authorization header. Credentials string should not contain spaces.".

(** [self.prefix.lower() or '']. *)
Definition auth_header_prefix (cfg : Settings) : text :=
  match str_lower (prefix cfg) with
  | [] => []
  | p => p
  end.

(** Lines 76-78: with an empty prefix, [auth.append('')] then
    [auth.reverse()]. *)
Definition add_sentinel (cfg : Settings) (auth : list strval) : list strval :=
  if (length (auth_header_prefix cfg) <? 1)%nat
  then reverse (auth ++ [Text []])
  else auth.

(** Lines 80-92, on the token list as it is after lines 76-78. *)
Definition check_tokens (cfg : Settings) (auth : list strval)
  : result (option strval) :=
  a0 ← index auth 0;
  first ← smart_text (lower a0);
  if bool_decide (first <> auth_header_prefix cfg) then Return None
  else if (length auth =? 1)%nat then
    Raise (AuthenticationFailed (ugettext msg_no_credentials))
  else if (2 <? length auth)%nat then
    Raise (AuthenticationFailed (ugettext msg_spaces))
  else
    a1 ← index auth 1;
    Return (Some a1).

(** The first element of the token list passes the comparison of line 80. *)
Definition prefix_matches (cfg : Settings) (auth : list strval) : Prop :=
  exists a0, auth !! 0%nat = Some a0
             /\ smart_text (lower a0) = Return (auth_header_prefix cfg).

(** Truth value of [self.cookie]: set and not the empty string. *)
Definition cookie_name (cfg : Settings) : option text :=
  match cookie cfg with
  | Some (c :: n) => Some (c :: n)
  | _ => None
  end.

(** The token list that lines 80-92 see: the words of line 68 after lines
    76-78. *)
Definition tokens (cfg : Settings) (raw : bytes) : list strval :=
  add_sentinel cfg (Bytes <$> bytes_split raw).

Definition get_jwt_value (cfg : Settings) (request : Request)
  : result (option strval) :=
  raw ← get_authorization cfg request;
  let auth := Bytes <$> bytes_split raw in
  match auth with
  | [] =>
    match cookie_name cfg with
    | Some c => Return (Text <$> COOKIES request !! c)
    | None => Return None
    end
  | _ => check_tokens cfg (add_sentinel cfg auth)
  end.

End Locator.

End JSONWebTokenAuthenticationQS.

Import JSONWebTokenAuthenticationQS.

(** ** The payload builder *)

#[local] Set Warnings "-register-all".

(** Python values that can occur in a payload. *)
Inductive pyval :=
| PyNone
| PyBool (b : bool)
| PyInt (z : Z)
| PyStr (s : text)
| PyUUID (int : N)
| PyDatetime (microseconds : Z)
| PyDict (items : list (text * pyval))
| PyObject (id : N).

(** What the JWT encoder can write as a JSON scalar. *)
Definition json_scalar (v : pyval) : bool :=
  match v with
  | PyNone | PyBool _ | PyInt _ | PyStr _ => true
  | _ => false
  end.

(** [str(u)] for a [uuid.UUID], whose [int] is below 2^128:
    ['%032x' % u.int], cut 8-4-4-4-12. *)
Definition hex_digit (d : N) : N := if d <? 10 then 48 + d else 87 + d.

Fixpoint hex_digits (width : nat) (n : N) : text :=
  match width with
  | O => []
  | S w => hex_digits w (n / 16) ++ [hex_digit (n mod 16)]
  end.

Definition uuid_str (int : N) : text :=
  let hex := hex_digits 32 int in
  take 8 hex ++ txt "-" ++ take 4 (drop 8 hex) ++ txt "-"
    ++ take 4 (drop 12 hex) ++ txt "-" ++ take 4 (drop 16 hex) ++ txt "-"
    ++ drop 20 hex.

(** The primary key of a user: an integer, a string or a UUID. *)
Inductive identifier :=
| IdInt (z : Z)
| IdStr (s : text)
| IdUUID (int : N).

Definition id_value (i : identifier) : pyval :=
  match i with
  | IdInt z => PyInt z
  | IdStr s => PyStr s
  | IdUUID n => PyUUID n
  end.

(** The user a delegated account is assigned to: a model instance with the
    three attributes the handler reads. *)
Module Assignee.
Record t := { name : pyval; mobile : pyval; email : pyval }.
End Assignee.

(** The value of [user.assigned_to]: [None] or a model instance. As a
    condition [None] is false and a model instance, which defines neither
    [__bool__] nor [__len__], is true. *)
Inductive reference :=
| Null
| ModelInstance (a : Assignee.t).

(** The user record. An optional attribute is [None] when [hasattr] is
    false and [Some v] when the attribute exists with value [v]. *)
Record User := {
  pk : identifier;
  is_staff : bool;
  email : option pyval;
  mobile : option pyval;
  name : option pyval;
  organization : option pyval;
  assigned_to : option reference
}.

(** [rest_framework_jwt.settings.api_settings], the fields read here. A
    duration is in microseconds; [None] is Python's [None]. *)
Record ApiSettings := {
  JWT_EXPIRATION_DELTA : Z;
  JWT_ALLOW_REFRESH : bool;
  JWT_AUDIENCE : option pyval;
  JWT_ISSUER : option pyval
}.

(** What the handler obtains from outside: the settings, the two functions
    of [rest_framework_jwt.compat], and the clock ([utcnow k] is the value of
    the [k]-th call of [datetime.utcnow()], in microseconds since the
    epoch). *)
Record World := {
  api_settings : ApiSettings;
  get_username_field : text;
  get_username : User -> pyval;
  utcnow : nat -> Z
}.

(** [if hasattr(user, a): payload[k] = user.a]. *)
Definition set_if_has (k : text) (attr : option pyval)
    (payload : gmap text pyval) : gmap text pyval :=
  match attr with
  | Some v => <[k := v]> payload
  | None => payload
  end.

Definition jwt_payload_handler (w : World) (user : User) : gmap text pyval :=
  let username_field := get_username_field w in
  let username := get_username w user in
  let payload : gmap text pyval :=
    <[txt "exp" :=
        PyDatetime (utcnow w 0 + JWT_EXPIRATION_DELTA (api_settings w))%Z]>
      (<[txt "is_admin" := PyBool (is_staff user)]>
         (<[txt "user_id" := id_value (pk user)]> ∅)) in
  let payload := set_if_has (txt "email") (email user) payload in
  let payload := set_if_has (txt "mobile") (mobile user) payload in
  let payload := set_if_has (txt "name") (name user) payload in
  let payload :=
    match pk user with
    | IdUUID int => <[txt "user_id" := PyStr (uuid_str int)]> payload
    | _ => payload
    end in
  let payload := <[username_field := username]> payload in
  let payload := set_if_has (txt "organization") (organization user) payload in
  let payload :=
    match assigned_to user with
    | Some (ModelInstance a) =>
      <[txt "assigned_to" :=
          PyDict [(txt "name", Assignee.name a);
                  (txt "mobile", Assignee.mobile a);
                  (txt "email", Assignee.email a)]]> payload
    | Some Null => <[txt "assigned_to" := PyNone]> payload
    | None => payload
    end in
  let payload :=
    if JWT_ALLOW_REFRESH (api_settings w)
    then <[txt "orig_iat" := PyInt (utcnow w 1 / 1000000)%Z]> payload
    else payload in
  let payload :=
    match JWT_AUDIENCE (api_settings w) with
    | Some aud => <[txt "aud" := aud]> payload
    | None => payload
    end in
  let payload :=
    match JWT_ISSUER (api_settings w) with
    | Some iss => <[txt "iss" := iss]> payload
    | None => payload
    end in
  payload.

(** ** A runtime for evaluation

    Case mapping restricted to the ASCII letters (on ASCII strings this is
    what [str.lower] and [str.upper] compute) and no active translation. *)
Definition ascii_lower (s : text) : text :=
  (fun c => if between 65 90 c then c + 32 else c) <$> s.

Definition ascii_upper (s : text) : text :=
  (fun c => if between 97 122 c then c - 32 else c) <$> s.

Definition ascii_runtime : Runtime :=
  {| str_lower := ascii_lower;
     str_upper := ascii_upper;
     ugettext := fun m => m;
     str_lower_empty := eq_refl |}.

(** The value that lines 132 and 146-147 leave under [user_id]. *)
Definition user_id_claim (i : identifier) : pyval :=
  match i with
  | IdUUID int => PyStr (uuid_str int)
  | _ => id_value i
  end.

(** ** Sample settings, requests and users *)

Definition jwt_settings : Settings :=
  {| key := txt "Authorization"; prefix := txt "JWT"; cookie := None |}.

Definition bare_settings : Settings :=
  {| key := txt "Authorization"; prefix := []; cookie := None |}.

Definition cookie_settings : Settings :=
  {| key := txt "Authorization"; prefix := txt "JWT";
     cookie := Some (txt "jwt") |}.

Definition request_with (body meta : list (text * strval))
    (cookies : list (text * text)) : Request :=
  {| data := list_to_map body; META := list_to_map meta;
     COOKIES := list_to_map cookies |}.

(** Body [Authorization: "JWT abc123"]. *)
Definition body_request : Request :=
  request_with [(txt "Authorization", Text (txt "JWT abc123"))] [] [].

(** Header [HTTP_AUTHORIZATION: "xyz789"]. *)
Definition header_request : Request :=
  request_with [] [(txt "HTTP_AUTHORIZATION", Text (txt "xyz789"))] [].

(** Body and header both set. *)
Definition both_request : Request :=
  request_with [(txt "Authorization", Text (txt "JWT abc123"))]
               [(txt "HTTP_AUTHORIZATION", Text (txt "JWT other"))] [].

(** Header [HTTP_AUTHORIZATION: "JWT"]. *)
Definition prefix_only_request : Request :=
  request_with [] [(txt "HTTP_AUTHORIZATION", Text (txt "JWT"))] [].

(** Header [HTTP_AUTHORIZATION: "JWT abc 123"]. *)
Definition spaced_request : Request :=
  request_with [] [(txt "HTTP_AUTHORIZATION", Text (txt "JWT abc 123"))] [].

(** Header [HTTP_AUTHORIZATION: "abc 123"]. *)
Definition two_words_request : Request :=
  request_with [] [(txt "HTTP_AUTHORIZATION", Text (txt "abc 123"))] [].

(** Header [HTTP_AUTHORIZATION: "Bearer abc123"]. *)
Definition bearer_request : Request :=
  request_with [] [(txt "HTTP_AUTHORIZATION", Text (txt "Bearer abc123"))] [].

(** No credential in body or header, cookie [jwt=tok]. *)
Definition cookie_request : Request :=
  request_with [] [] [(txt "jwt", txt "tok")].

(** Header [HTTP_AUTHORIZATION] holding the octet 0xFF, a space and [a],
    as a WSGI server delivers it (header octets read as ISO-8859-1). *)
Definition latin1_request : Request :=
  request_with [] [(txt "HTTP_AUTHORIZATION", Text [255; 32; 97])] [].

(** User [{id: 42, is_staff: true, email: "a@b.com"}]. *)
Definition staff_user : User :=
  {| pk := IdInt 42; is_staff := true;
     email := Some (PyStr (txt "a@b.com"));
     mobile := None; name := None; organization := None;
     assigned_to := None |}.

(** A user with a UUID key whose [assigned_to] is [None]. *)
Definition uuid_user : User :=
  {| pk := IdUUID 0x123e4567e89b12d3a456426614174000; is_staff := false;
     email := None; mobile := None; name := None; organization := None;
     assigned_to := Some Null |}.

(** A user assigned to another one. *)
Definition assigned_user : User :=
  {| pk := IdInt 7; is_staff := false;
     email := None; mobile := None; name := None; organization := None;
     assigned_to :=
       Some (ModelInstance
               {| Assignee.name := PyStr (txt "Bo");
                  Assignee.mobile := PyStr (txt "555");
                  Assignee.email := PyStr (txt "bo@b.com") |}) |}.

Definition plain_api_settings : ApiSettings :=
  {| JWT_EXPIRATION_DELTA := 300000000; JWT_ALLOW_REFRESH := false;
     JWT_AUDIENCE := None; JWT_ISSUER := None |}.

(** The user model names its login field [field]; every user logs in as
    [alice]; the clock stands at 1000 seconds. *)
Definition world_with (field : string) : World :=
  {| api_settings := plain_api_settings;
     get_username_field := txt field;
     get_username := fun _ => PyStr (txt "alice");
     utcnow := fun _ => 1000000000%Z |}.

(** The user model has a UUID key named [user_id], which is also its login
    field: [get_username] is the key itself. *)
Definition uuid_login_world : World :=
  {| api_settings := plain_api_settings;
     get_username_field := txt "user_id";
     get_username := fun u => id_value (pk u);
     utcnow := fun _ => 1000000000%Z |}.

(** Header [HTTP_AUTHORIZATION: "JWT" + U+20AC] (a euro sign). *)
Definition euro_request : Request :=
  request_with []
    [(txt "HTTP_AUTHORIZATION", Text (txt "JWT " ++ [8364]))] [].

(** A blank body value, a well-formed header and a cookie. *)
Definition blank_body_request : Request :=
  request_with [(txt "Authorization", Text (txt "  "))]
               [(txt "HTTP_AUTHORIZATION", Text (txt "JWT abc123"))]
               [(txt "jwt", txt "tok")].

(** Header [HTTP_AUTHORIZATION: " jwt  AbC123 "]. *)
Definition padded_request : Request :=
  request_with [] [(txt "HTTP_AUTHORIZATION", Text (txt " jwt  AbC123 "))] [].

(** Header [HTTP_AUTHORIZATION: "Bearer abc123"] and a cookie. *)
Definition bearer_cookie_request : Request :=
  request_with [] [(txt "HTTP_AUTHORIZATION", Text (txt "Bearer abc123"))]
               [(txt "jwt", txt "tok")].

(** Refresh allowed, audience and issuer configured; the second clock
    reading is 1000.75 seconds. *)
Definition full_world : World :=
  {| api_settings :=
       {| JWT_EXPIRATION_DELTA := 300000000; JWT_ALLOW_REFRESH := true;
          JWT_AUDIENCE := Some (PyStr (txt "api"));
          JWT_ISSUER := Some (PyStr (txt "auth")) |};
     get_username_field := txt "username";
     get_username := fun _ => PyStr (txt "alice");
     utcnow := fun k => match k with
                        | O => 1000000000%Z
                        | _ => 1000750000%Z
                        end |}.

(** * Properties of the credential locator *)

(** ** Splitting and decoding *)

Lemma split_from_words (s word t : bytes) :
  t ∈ split_from word s -> t <> [].
Proof.
  revert word. induction s as [|c s IH]; intros word Ht; simpl in Ht.
  - destruct word; [by apply elem_of_nil in Ht|].
    apply list_elem_of_singleton in Ht. by subst.
  - destruct (is_space c); [|by eapply IH].
    destruct word; [by eapply IH|].
    apply elem_of_cons in Ht as [->|Ht]; [done|by eapply IH].
Qed.

Lemma bytes_split_words (raw t : bytes) :
  t ∈ bytes_split raw -> t <> [].
Proof. apply split_from_words. Qed.

Lemma bytes_split_empty_input : bytes_split [] = [].
Proof. reflexivity. Qed.

Lemma utf8_decode_nil (l : list N) :
  utf8_decode l = Some [] -> l = [].
Proof.
  destruct l as [|b0 r]; [done|]. simpl.
  repeat (case_match; try done).
  all: by destruct (utf8_decode _).
Qed.

Lemma bytes_decode_utf8_nil (b : bytes) :
  bytes_decode_utf8 b = Some [] -> b = [].
Proof.
  unfold bytes_decode_utf8. intros H%utf8_decode_nil.
  by apply fmap_nil_inv in H.
Qed.

Lemma encode_latin1_nil (s : text) :
  encode_latin1 s = Return [] -> s = [].
Proof.
  unfold encode_latin1. destruct s as [|c s]; [done|]. simpl.
  unfold mbind, option_bind. destruct (of_N c); [|done].
  destruct (mapM of_N s); done.
Qed.

Section LocatorFacts.
Context `{RT : Runtime}.
Implicit Types (cfg : Settings) (request : Request) (raw : bytes).
Implicit Types (v : strval) (auth : list strval).

(** ** Selection of the raw credential *)

Lemma truthy_false v : truthy v = false <-> v = Text [] \/ v = Bytes [].
Proof.
  split.
  - destruct v as [[|]|[|]]; naive_solver.
  - by intros [->| ->].
Qed.

Lemma to_bytes_nil v : to_bytes v = Return [] -> truthy v = false.
Proof.
  destruct v as [s|b]; simpl.
  - by intros ->%encode_latin1_nil.
  - by intros [= ->].
Qed.

Lemma raw_authorization_body cfg request v :
  data request !! key cfg = Some v -> truthy v = true ->
  raw_authorization cfg request = v.
Proof.
  intros Hv Ht. unfold raw_authorization, dict_get, py_or. by rewrite Hv, Ht.
Qed.

Lemma raw_authorization_header cfg request :
  (data request !! key cfg = None
   \/ exists v, data request !! key cfg = Some v /\ truthy v = false) ->
  raw_authorization cfg request
  = dict_get (META request) (txt "HTTP_" ++ str_upper (key cfg)) (Bytes []).
Proof.
  unfold raw_authorization, dict_get, py_or, header_key.
  intros [-> | (v & -> & ->)]; done.
Qed.

(** ** The token list *)

Lemma auth_header_prefix_lower cfg :
  auth_header_prefix cfg = str_lower (prefix cfg).
Proof. unfold auth_header_prefix. by destruct (str_lower _). Qed.

Lemma add_sentinel_no_prefix cfg auth :
  prefix cfg = [] -> add_sentinel cfg auth = Text [] :: reverse auth.
Proof.
  intros Hp. unfold add_sentinel.
  rewrite auth_header_prefix_lower, Hp, str_lower_empty. simpl.
  by rewrite reverse_app.
Qed.

Lemma add_sentinel_with_prefix cfg auth :
  auth_header_prefix cfg <> [] -> add_sentinel cfg auth = auth.
Proof.
  intros Hp. unfold add_sentinel.
  destruct (auth_header_prefix cfg); [done|reflexivity].
Qed.

Lemma get_jwt_value_nonempty cfg request raw :
  get_authorization cfg request = Return raw ->
  bytes_split raw <> [] ->
  get_jwt_value cfg request = check_tokens cfg (tokens cfg raw).
Proof.
  intros Hraw Hne. unfold get_jwt_value, tokens. rewrite Hraw.
  change (Return raw ≫= ?k) with (k raw). cbv beta zeta.
  by destruct (bytes_split raw).
Qed.

Lemma smart_text_lower_bytes_nonempty (t : bytes) (s : text) :
  t <> [] -> smart_text (lower (Bytes t)) = Return s -> s <> [].
Proof.
  intros Ht. simpl. destruct (bytes_decode_utf8 _) eqn:Hd; [|done].
  intros [= <-] ->. apply bytes_decode_utf8_nil in Hd.
  by apply fmap_nil_inv in Hd.
Qed.

Lemma index_lookup {A} (l : list A) (i : nat) (x : A) :
  l !! i = Some x -> index l i = Return x.
Proof. unfold index. by intros ->. Qed.

(** Lines 83-92, once the comparison of line 80 has passed. *)
Lemma check_tokens_matching cfg auth :
  prefix_matches cfg auth ->
  check_tokens cfg auth
  = if (length auth =? 1)%nat
    then Raise (AuthenticationFailed (ugettext msg_no_credentials))
    else if (2 <? length auth)%nat
    then Raise (AuthenticationFailed (ugettext msg_spaces))
    else a1 ← index auth 1; Return (Some a1).
Proof.
  intros (a0 & Ha0 & Hfirst).
  unfold check_tokens at 1. rewrite (index_lookup _ _ _ Ha0).
  change (Return a0 ≫= ?k) with (k a0). cbv beta. rewrite Hfirst.
  change (Return ?x ≫= ?k) with (k x). cbv beta.
  by rewrite bool_decide_eq_false_2 by (intros H; by apply H).
Qed.

(** Line 80-81, when the comparison fails. *)
Lemma check_tokens_mismatch cfg auth a0 (first : text) :
  auth !! 0%nat = Some a0 ->
  smart_text (lower a0) = Return first ->
  first <> auth_header_prefix cfg ->
  check_tokens cfg auth = Return None.
Proof.
  intros Ha0 Hfirst Hdiff.
  unfold check_tokens. rewrite (index_lookup _ _ _ Ha0).
  change (Return a0 ≫= ?k) with (k a0). cbv beta. rewrite Hfirst.
  change (Return ?x ≫= ?k) with (k x). cbv beta.
  by rewrite bool_decide_eq_true_2.
Qed.

(** ** The outcomes of [get_jwt_value] *)

(** C1. When the body holds, under the configured field name, a value whose
    byte string splits into exactly two words, and the first word,
    lower-cased and read as text, is the lower-cased configured prefix (which
    is then not empty), [get_jwt_value] returns the second word. *)
Theorem get_jwt_value_body_token cfg request v raw (t0 t1 : bytes) :
  data request !! key cfg = Some v ->
  to_bytes v = Return raw ->
  bytes_split raw = [t0; t1] ->
  smart_text (lower (Bytes t0)) = Return (str_lower (prefix cfg)) ->
  prefix cfg <> [] /\ get_jwt_value cfg request = Return (Some (Bytes t1)).
Proof.
  intros Hv Hraw Hsplit Hfirst.
  assert (Ht0 : t0 <> []).
  { apply (bytes_split_words raw). rewrite Hsplit. set_solver. }
  pose proof (smart_text_lower_bytes_nonempty _ _ Ht0 Hfirst) as Hp.
  split.
  { intros E. rewrite E, str_lower_empty in Hp. done. }
  assert (Htruthy : truthy v = true).
  { destruct (truthy v) eqn:E; [done|].
    apply truthy_false in E as [-> | ->]; simpl in Hraw;
      injection Hraw as <-; discriminate Hsplit. }
  assert (Hauth : get_authorization cfg request = Return raw).
  { unfold get_authorization. by rewrite (raw_authorization_body _ _ v). }
  rewrite (get_jwt_value_nonempty _ _ raw Hauth) by (by rewrite Hsplit).
  rewrite <- auth_header_prefix_lower in Hfirst, Hp.
  unfold tokens. rewrite add_sentinel_with_prefix, Hsplit by done.
  rewrite check_tokens_matching; [done|].
  by exists (Bytes t0).
Qed.

(** C2. The credential is read from the body under the configured field
    name; the header, under [HTTP_] followed by the upper-cased field name, is
    read only when the body value is absent or empty. A non-empty body value
    is used whatever the header holds. *)
Theorem get_authorization_body_first cfg request :
  (forall v, data request !! key cfg = Some v -> truthy v = true ->
     get_authorization cfg request = to_bytes v
     /\ forall meta,
          get_authorization cfg
            {| data := data request; META := meta;
               COOKIES := COOKIES request |}
          = to_bytes v)
  /\ ((data request !! key cfg = None
       \/ exists v, data request !! key cfg = Some v
                    /\ (v = Text [] \/ v = Bytes [])) ->
      get_authorization cfg request
      = to_bytes (dict_get (META request)
                           (txt "HTTP_" ++ str_upper (key cfg)) (Bytes []))).
Proof.
  split.
  - intros v Hv Ht. unfold get_authorization.
    split; [by rewrite (raw_authorization_body _ _ v)|].
    intros meta. by rewrite (raw_authorization_body _ _ v).
  - intros H. unfold get_authorization.
    rewrite raw_authorization_header; [done|].
    destruct H as [H | (v & Hv & He)]; [by left|].
    right. exists v. split; [done|]. by apply truthy_false.
Qed.

(** C3. When the first element of the token list passes the prefix
    comparison, a list of exactly one element raises [AuthenticationFailed]
    with the message that no credentials were provided, and a list of more
    than two elements raises [AuthenticationFailed] with the message that the
    credentials contain spaces. Neither outcome is a returned [None]. *)
Theorem get_jwt_value_malformed cfg request raw :
  get_authorization cfg request = Return raw ->
  bytes_split raw <> [] ->
  prefix_matches cfg (tokens cfg raw) ->
  (length (tokens cfg raw) = 1%nat ->
     get_jwt_value cfg request
     = Raise (AuthenticationFailed (ugettext msg_no_credentials)))
  /\ ((2 < length (tokens cfg raw))%nat ->
     get_jwt_value cfg request
     = Raise (AuthenticationFailed (ugettext msg_spaces)))
  /\ (length (tokens cfg raw) <> 2%nat ->
     get_jwt_value cfg request <> Return None).
Proof.
  intros Hauth Hne Hm.
  rewrite (get_jwt_value_nonempty _ _ raw Hauth Hne).
  rewrite (check_tokens_matching _ _ Hm).
  destruct Hm as (a0 & Ha0 & _). split; [|split].
  - intros ->. reflexivity.
  - intros Hlen. destruct (Nat.eqb_spec (length (tokens cfg raw)) 1); [lia|].
    destruct (Nat.ltb_spec 2 (length (tokens cfg raw))); [done|lia].
  - intros Hlen. destruct (Nat.eqb_spec (length (tokens cfg raw)) 1); [done|].
    destruct (Nat.ltb_spec 2 (length (tokens cfg raw))); [done|].
    assert (length (tokens cfg raw) = 0%nat) as Hz by lia.
    apply length_zero_iff_nil in Hz. by rewrite Hz in Ha0.
Qed.

(** C4. When the byte string obtained from body and header has no word,
    [get_jwt_value] returns without raising: the value stored under the
    configured cookie name, [None] when that cookie is not set, and [None]
    when no cookie name is configured. *)
Theorem get_jwt_value_no_tokens cfg request raw :
  get_authorization cfg request = Return raw ->
  bytes_split raw = [] ->
  (forall c, cookie cfg = Some c -> c <> [] ->
     get_jwt_value cfg request = Return (Text <$> COOKIES request !! c)
     /\ (COOKIES request !! c = None ->
         get_jwt_value cfg request = Return None))
  /\ (cookie cfg = None -> get_jwt_value cfg request = Return None).
Proof.
  intros Hauth Hsplit. unfold get_jwt_value. rewrite Hauth. simpl.
  rewrite Hsplit. simpl. unfold cookie_name. split.
  - intros c -> Hc. destruct c as [|c0 c]; [done|].
    split; [done|]. by intros ->.
  - by intros ->.
Qed.

(** C5, as the code has it. When the lower-cased configured prefix is not
    empty and the first word of the retrieved credential, lower-cased, is
    valid UTF-8 and reads as a text that differs from the lower-cased
    prefix, [get_jwt_value] returns [None]. *)
Theorem get_jwt_value_prefix_mismatch cfg request raw (t0 : bytes)
    (rest : list bytes) (first : text) :
  get_authorization cfg request = Return raw ->
  bytes_split raw = t0 :: rest ->
  str_lower (prefix cfg) <> [] ->
  bytes_decode_utf8 (bytes_lower t0) = Some first ->
  first <> str_lower (prefix cfg) ->
  get_jwt_value cfg request = Return None.
Proof.
  intros Hauth Hsplit Hp Hfirst Hdiff.
  rewrite (get_jwt_value_nonempty _ _ raw Hauth) by (by rewrite Hsplit).
  unfold tokens.
  rewrite add_sentinel_with_prefix, Hsplit
    by (by rewrite auth_header_prefix_lower).
  apply (check_tokens_mismatch _ _ (Bytes t0) first).
  - done.
  - simpl. by rewrite Hfirst.
  - by rewrite auth_header_prefix_lower.
Qed.

(** C6. With an empty configured prefix and a credential of a single word,
    the token list becomes the empty string followed by the word, the
    prefix comparison passes, and [get_jwt_value] returns the word. *)
Theorem get_jwt_value_no_prefix_single cfg request raw (t : bytes) :
  prefix cfg = [] ->
  get_authorization cfg request = Return raw ->
  bytes_split raw = [t] ->
  tokens cfg raw = [Text []; Bytes t]
  /\ prefix_matches cfg (tokens cfg raw)
  /\ get_jwt_value cfg request = Return (Some (Bytes t)).
Proof.
  intros Hp Hauth Hsplit.
  assert (Htok : tokens cfg raw = [Text []; Bytes t]).
  { unfold tokens. by rewrite add_sentinel_no_prefix, Hsplit. }
  assert (Hpre : auth_header_prefix cfg = []).
  { by rewrite auth_header_prefix_lower, Hp, str_lower_empty. }
  assert (Hm : prefix_matches cfg (tokens cfg raw)).
  { exists (Text []). rewrite Htok. split; [done|].
    simpl. by rewrite str_lower_empty, Hpre. }
  split; [done|]. split; [done|].
  rewrite (get_jwt_value_nonempty _ _ raw Hauth) by (by rewrite Hsplit).
  by rewrite (check_tokens_matching _ _ Hm), Htok.
Qed.

(** C10. With an empty configured prefix and a credential of two or more
    words, the token list has at least three elements and starts with the
    empty string, the prefix comparison passes, and [get_jwt_value] raises
    [AuthenticationFailed] with the message about spaces: no token is
    returned. *)
Theorem get_jwt_value_no_prefix_many cfg request raw :
  prefix cfg = [] ->
  get_authorization cfg request = Return raw ->
  (2 <= length (bytes_split raw))%nat ->
  (3 <= length (tokens cfg raw))%nat
  /\ tokens cfg raw !! 0%nat = Some (Text [])
  /\ prefix_matches cfg (tokens cfg raw)
  /\ get_jwt_value cfg request
     = Raise (AuthenticationFailed (ugettext msg_spaces)).
Proof.
  intros Hp Hauth Hlen.
  assert (Htok : tokens cfg raw
                 = Text [] :: reverse (Bytes <$> bytes_split raw)).
  { unfold tokens. by rewrite add_sentinel_no_prefix. }
  assert (Hpre : auth_header_prefix cfg = []).
  { by rewrite auth_header_prefix_lower, Hp, str_lower_empty. }
  assert (Hl : (3 <= length (tokens cfg raw))%nat).
  { rewrite Htok. simpl. rewrite length_reverse, length_fmap. lia. }
  assert (Hm : prefix_matches cfg (tokens cfg raw)).
  { exists (Text []). rewrite Htok. split; [done|].
    simpl. by rewrite str_lower_empty, Hpre. }
  split; [done|]. split; [by rewrite Htok|]. split; [done|].
  rewrite (get_jwt_value_nonempty _ _ raw Hauth).
  - rewrite (check_tokens_matching _ _ Hm).
    destruct (Nat.eqb_spec (length (tokens cfg raw)) 1); [lia|].
    destruct (Nat.ltb_spec 2 (length (tokens cfg raw))); [done|lia].
  - intros E. rewrite E in Hlen. simpl in Hlen. lia.
Qed.

End LocatorFacts.

(** * Properties of the payload builder *)

Section PayloadFacts.
Variable w : World.
Variable user : User.

Local Ltac key_ne :=
  let H := fresh in intros H; vm_compute in H; discriminate H.

Lemma set_if_has_grows (k : text) (a : option pyval)
    (payload : gmap text pyval) (j : text) :
  is_Some (payload !! j) -> is_Some (set_if_has k a payload !! j).
Proof.
  intros H. destruct a; simpl; [|done].
  apply lookup_insert_is_Some'. by right.
Qed.

Lemma insert_grows (i : text) (x : pyval) (payload : gmap text pyval)
    (j : text) :
  is_Some (payload !! j) -> is_Some (<[i := x]> payload !! j).
Proof. intros H. apply lookup_insert_is_Some'. by right. Qed.

Lemma set_if_has_lookup_ne (k : text) (a : option pyval)
    (payload : gmap text pyval) (j : text) :
  k <> j -> set_if_has k a payload !! j = payload !! j.
Proof.
  intros H. destruct a; simpl; [|done]. by apply lookup_insert_ne.
Qed.

(** A claim written by some line is still there at the end: no line
    removes a key. *)
Local Ltac grows :=
  repeat first
    [ by (rewrite lookup_insert_eq; eexists)
    | apply set_if_has_grows
    | apply insert_grows
    | match goal with
      | |- is_Some (match ?x with _ => _ end !! _) => destruct x
      | |- is_Some ((if ?b then _ else _) !! _) => destruct b
      end ].

Lemma jwt_payload_handler_required_keys :
  is_Some (jwt_payload_handler w user !! txt "user_id")
  /\ is_Some (jwt_payload_handler w user !! txt "is_admin")
  /\ is_Some (jwt_payload_handler w user !! txt "exp")
  /\ is_Some (jwt_payload_handler w user !! get_username_field w).
Proof.
  unfold jwt_payload_handler. cbv zeta. repeat split; grows.
Qed.

(** Reading a key of the final payload: lines that write another key are
    skipped, branches are taken apart. *)
Local Ltac peel :=
  repeat first
    [ rewrite lookup_insert_eq
    | rewrite lookup_insert_ne by (first [assumption | key_ne])
    | rewrite set_if_has_lookup_ne by key_ne
    | rewrite lookup_empty
    | match goal with
      | |- context [match ?x with _ => _ end !! _] => destruct x
      | |- context [(if ?b then _ else _) !! _] => destruct b
      end ].

Lemma json_scalar_user_id_claim (i : identifier) :
  json_scalar (user_id_claim i) = true.
Proof. by destruct i. Qed.

Lemma jwt_payload_handler_user_id_lookup :
  get_username_field w <> txt "user_id" ->
  jwt_payload_handler w user !! txt "user_id"
  = Some (user_id_claim (pk user)).
Proof.
  intros Hfield. unfold jwt_payload_handler. cbv zeta.
  destruct (pk user); peel; reflexivity.
Qed.

(** C7. The payload always has the claims [user_id], [is_admin], [exp] and
    the claim named by the username field. For a user with an [email]
    attribute and none of [mobile], [name], [organization], [assigned_to],
    with refresh disabled and neither audience nor issuer configured, the
    payload is the mapping [{user_id, is_admin, exp, email, <username
    field>}] and has no other key. *)
Theorem jwt_payload_handler_claim_set :
  (is_Some (jwt_payload_handler w user !! txt "user_id")
   /\ is_Some (jwt_payload_handler w user !! txt "is_admin")
   /\ is_Some (jwt_payload_handler w user !! txt "exp")
   /\ is_Some (jwt_payload_handler w user !! get_username_field w))
  /\ (forall e,
        email user = Some e -> mobile user = None -> name user = None ->
        organization user = None -> assigned_to user = None ->
        JWT_ALLOW_REFRESH (api_settings w) = false ->
        JWT_AUDIENCE (api_settings w) = None ->
        JWT_ISSUER (api_settings w) = None ->
        jwt_payload_handler w user
        = <[get_username_field w := get_username w user]>
            (<[txt "email" := e]>
               (<[txt "exp" :=
                    PyDatetime
                      (utcnow w 0 + JWT_EXPIRATION_DELTA (api_settings w))%Z]>
                  (<[txt "is_admin" := PyBool (is_staff user)]>
                     {[txt "user_id" := user_id_claim (pk user)]})))
        /\ dom (jwt_payload_handler w user)
           = ({[txt "user_id"; txt "is_admin"; txt "exp"; txt "email";
                get_username_field w]} : gset text)).
Proof.
  split; [apply jwt_payload_handler_required_keys|].
  intros e He Hm Hn Ho Ha Hr Haud Hiss.
  assert (Heq : jwt_payload_handler w user
    = <[get_username_field w := get_username w user]>
        (<[txt "email" := e]>
           (<[txt "exp" :=
                PyDatetime
                  (utcnow w 0 + JWT_EXPIRATION_DELTA (api_settings w))%Z]>
              (<[txt "is_admin" := PyBool (is_staff user)]>
                 {[txt "user_id" := user_id_claim (pk user)]})))).
  { unfold jwt_payload_handler. cbv zeta.
    rewrite He, Hm, Hn, Ho, Ha, Hr, Haud, Hiss. simpl set_if_has.
    f_equal. apply map_eq. intros k.
    destruct (pk user); simpl user_id_claim; simpl id_value; [done..|].
    destruct (decide (k = txt "user_id")) as [->|Hk].
    - peel; reflexivity.
    - rewrite (lookup_insert_ne _ (txt "user_id")) by done.
      rewrite !(lookup_insert _ _ k).
      repeat case_decide; try done.
      by rewrite lookup_singleton_ne, lookup_empty. }
  split; [done|].
  rewrite Heq. rewrite !dom_insert_L, dom_singleton_L.
  apply set_eq. intros k. rewrite !elem_of_union, !elem_of_singleton. tauto.
Qed.

(** C8. When the user has an [assigned_to] attribute, the payload has an
    [assigned_to] claim: the mapping of the assignee's [name], [mobile] and
    [email] when the attribute holds an assignee, and [None] when it holds
    [None]. When the user has no such attribute, the handler writes no
    [assigned_to] claim (the payload has one only if the username field
    itself is named [assigned_to]). *)
Theorem jwt_payload_handler_assigned_to :
  (forall a, assigned_to user = Some (ModelInstance a) ->
     jwt_payload_handler w user !! txt "assigned_to"
     = Some (PyDict [(txt "name", Assignee.name a);
                     (txt "mobile", Assignee.mobile a);
                     (txt "email", Assignee.email a)]))
  /\ (assigned_to user = Some Null ->
      jwt_payload_handler w user !! txt "assigned_to" = Some PyNone)
  /\ (assigned_to user = None ->
      get_username_field w <> txt "assigned_to" ->
      jwt_payload_handler w user !! txt "assigned_to" = None).
Proof.
  unfold jwt_payload_handler. cbv zeta. split; [|split].
  - intros a ->. peel; reflexivity.
  - intros ->. peel; reflexivity.
  - intros -> Hfield. peel; reflexivity.
Qed.

(** C9, as the code has it. When the username field is not itself named
    [user_id], the [user_id] claim is a JSON scalar, and for a user whose
    key is a UUID it is the canonical string form of that UUID. *)
Theorem jwt_payload_handler_user_id :
  get_username_field w <> txt "user_id" ->
  (exists v, jwt_payload_handler w user !! txt "user_id" = Some v
             /\ json_scalar v = true)
  /\ (forall int, pk user = IdUUID int ->
        jwt_payload_handler w user !! txt "user_id"
        = Some (PyStr (uuid_str int))).
Proof.
  intros Hfield. split.
  - exists (user_id_claim (pk user)).
    split; [by apply jwt_payload_handler_user_id_lookup|].
    apply json_scalar_user_id_claim.
  - intros int Hpk.
    rewrite jwt_payload_handler_user_id_lookup by done. by rewrite Hpk.
Qed.

End PayloadFacts.

(** * Runs on the sample inputs *)

(** [str] of a UUID. *)
Example uuid_str_sample :
  uuid_str 0x123e4567e89b12d3a456426614174000
  = txt "123e4567-e89b-12d3-a456-426614174000".
Proof. reflexivity. Qed.

(** Runs of whitespace separate the words. *)
Example bytes_split_sample :
  bytes_split [x20; x4a; x57; x54; x09; x20; x61; x0a]
  = [lit "JWT"; lit "a"].
Proof. reflexivity. Qed.

(** The euro sign has no ISO-8859-1 octet; its UTF-8 form decodes. *)
Example encode_latin1_sample :
  encode_latin1 [8364] = Raise UnicodeEncodeError
  /\ encode_latin1 [233] = Return [xe9]
  /\ bytes_decode_utf8 [xe2; x82; xac] = Some [8364]
  /\ bytes_decode_utf8 [xe9] = None.
Proof. repeat split; reflexivity. Qed.

(** Prefix [JWT], body [Authorization: "JWT abc123"]: the token is
    [abc123]. *)
Lemma get_jwt_value_body_token_run :
  get_jwt_value (RT := ascii_runtime) jwt_settings body_request
  = Return (Some (Bytes (lit "abc123"))).
Proof.
  refine (proj2 (get_jwt_value_body_token (RT := ascii_runtime)
                   jwt_settings body_request (Text (txt "JWT abc123"))
                   (lit "JWT abc123") (lit "JWT") (lit "abc123") _ _ _ _));
    reflexivity.
Defined.

(** Body and header both set: the body value is the credential. *)
Lemma get_authorization_body_first_run :
  get_authorization (RT := ascii_runtime) jwt_settings both_request
  = Return (lit "JWT abc123").
Proof.
  refine (proj1 (proj1 (get_authorization_body_first (RT := ascii_runtime)
                          jwt_settings both_request)
                   (Text (txt "JWT abc123")) _ _));
    reflexivity.
Defined.

(** Prefix [JWT]: the header [JWT] alone and the header [JWT abc 123] are
    both rejected. *)
Lemma get_jwt_value_malformed_run :
  get_jwt_value (RT := ascii_runtime) jwt_settings prefix_only_request
  = Raise (AuthenticationFailed msg_no_credentials)
  /\ get_jwt_value (RT := ascii_runtime) jwt_settings spaced_request
     = Raise (AuthenticationFailed msg_spaces).
Proof.
  split.
  - refine (proj1 (get_jwt_value_malformed (RT := ascii_runtime)
                     jwt_settings prefix_only_request (lit "JWT") _ _ _) _);
      try reflexivity; [discriminate|].
    exists (Bytes (lit "JWT")). split; reflexivity.
  - refine (proj1 (proj2 (get_jwt_value_malformed (RT := ascii_runtime)
                     jwt_settings spaced_request (lit "JWT abc 123") _ _ _))
              _);
      try reflexivity; [discriminate| |vm_compute; lia].
    exists (Bytes (lit "JWT")). split; reflexivity.
Defined.

(** No credential in body or header, cookie name [jwt] configured and the
    cookie set to [tok]. *)
Lemma get_jwt_value_no_tokens_run :
  get_jwt_value (RT := ascii_runtime) cookie_settings cookie_request
  = Return (Some (Text (txt "tok"))).
Proof.
  refine (proj1 (proj1 (get_jwt_value_no_tokens (RT := ascii_runtime)
                          cookie_settings cookie_request [] _ _)
                   (txt "jwt") _ _));
    try reflexivity. discriminate.
Defined.

(** Prefix [JWT], header [Bearer abc123]: no credential for this scheme. *)
Lemma get_jwt_value_prefix_mismatch_run :
  get_jwt_value (RT := ascii_runtime) jwt_settings bearer_request
  = Return None.
Proof.
  refine (get_jwt_value_prefix_mismatch (RT := ascii_runtime)
            jwt_settings bearer_request (lit "Bearer abc123")
            (lit "Bearer") [lit "abc123"] (txt "bearer") _ _ _ _ _);
    try reflexivity; discriminate.
Defined.

(** C5 does not hold as stated, in two ways. Prefix [JWT], header holding
    the octet 0xFF, a space and [a]: the first word is not the prefix, yet
    line 80 raises [DjangoUnicodeDecodeError]. Empty prefix, header
    [xyz789]: the first word is not the empty prefix, yet lines 76-78 put
    the empty string in front, the comparison passes and the word is
    returned. Each of the two fails the claim even when the other is
    excluded. *)
Lemma get_jwt_value_mismatch_not_absent :
  get_jwt_value (RT := ascii_runtime) jwt_settings latin1_request
  = Raise DjangoUnicodeDecodeError
  /\ get_jwt_value (RT := ascii_runtime) bare_settings header_request
     = Return (Some (Bytes (lit "xyz789")))
  /\ ~ (forall (RT : Runtime) cfg request raw (t0 : bytes)
               (rest : list bytes),
          get_authorization cfg request = Return raw ->
          bytes_split raw = t0 :: rest ->
          smart_text (lower (Bytes t0)) <> Return (str_lower (prefix cfg)) ->
          get_jwt_value cfg request = Return None)
  /\ ~ (forall (RT : Runtime) cfg request raw (t0 : bytes)
               (rest : list bytes),
          get_authorization cfg request = Return raw ->
          bytes_split raw = t0 :: rest ->
          str_lower (prefix cfg) <> [] ->
          smart_text (lower (Bytes t0)) <> Return (str_lower (prefix cfg)) ->
          get_jwt_value cfg request = Return None)
  /\ ~ (forall (RT : Runtime) cfg request raw (t0 : bytes)
               (rest : list bytes) (first : text),
          get_authorization cfg request = Return raw ->
          bytes_split raw = t0 :: rest ->
          bytes_decode_utf8 (bytes_lower t0) = Some first ->
          first <> str_lower (prefix cfg) ->
          get_jwt_value cfg request = Return None).
Proof.
  split; [reflexivity|]. split; [reflexivity|]. split; [|split].
  - intros H.
    assert (E : get_jwt_value (RT := ascii_runtime) jwt_settings
                  latin1_request = Return None).
    { apply (H ascii_runtime jwt_settings latin1_request
               [xff; x20; x61] [xff] [[x61]]); [reflexivity..|].
      intros E. vm_compute in E. discriminate E. }
    vm_compute in E. discriminate E.
  - intros H.
    assert (E : get_jwt_value (RT := ascii_runtime) jwt_settings
                  latin1_request = Return None).
    { apply (H ascii_runtime jwt_settings latin1_request
               [xff; x20; x61] [xff] [[x61]]); [reflexivity..| |].
      - discriminate.
      - intros E. vm_compute in E. discriminate E. }
    vm_compute in E. discriminate E.
  - intros H.
    assert (E : get_jwt_value (RT := ascii_runtime) bare_settings
                  header_request = Return None).
    { apply (H ascii_runtime bare_settings header_request
               (lit "xyz789") (lit "xyz789") [] (txt "xyz789"));
        [reflexivity..|].
      discriminate. }
    vm_compute in E. discriminate E.
Qed.

(** Empty prefix, header [xyz789]: the token is [xyz789]. *)
Lemma get_jwt_value_no_prefix_single_run :
  get_jwt_value (RT := ascii_runtime) bare_settings header_request
  = Return (Some (Bytes (lit "xyz789"))).
Proof.
  refine (proj2 (proj2 (get_jwt_value_no_prefix_single (RT := ascii_runtime)
                          bare_settings header_request (lit "xyz789")
                          (lit "xyz789") _ _ _)));
    reflexivity.
Defined.

(** Empty prefix, header [abc 123]: rejected. *)
Lemma get_jwt_value_no_prefix_many_run :
  get_jwt_value (RT := ascii_runtime) bare_settings two_words_request
  = Raise (AuthenticationFailed msg_spaces).
Proof.
  refine (proj2 (proj2 (proj2 (get_jwt_value_no_prefix_many
                                 (RT := ascii_runtime)
                                 bare_settings two_words_request
                                 (lit "abc 123") _ _ _))));
    first [reflexivity | vm_compute; lia].
Defined.

(** User [{id: 42, is_staff: true, email: "a@b.com"}], username field
    [username]: five claims. *)
Lemma jwt_payload_handler_claim_set_run :
  jwt_payload_handler (world_with "username") staff_user
  = list_to_map
      [(txt "user_id", PyInt 42); (txt "is_admin", PyBool true);
       (txt "exp", PyDatetime 1300000000); (txt "email", PyStr (txt "a@b.com"));
       (txt "username", PyStr (txt "alice"))]
  /\ size (jwt_payload_handler (world_with "username") staff_user) = 5%nat.
Proof.
  split; [|reflexivity].
  refine (eq_trans
            (proj1 (proj2 (jwt_payload_handler_claim_set
                             (world_with "username") staff_user)
                      (PyStr (txt "a@b.com")) _ _ _ _ _ _ _ _)) _);
    reflexivity.
Defined.

(** [assigned_to] holding [None], and holding an assignee. *)
Lemma jwt_payload_handler_assigned_to_run :
  jwt_payload_handler (world_with "username") uuid_user !! txt "assigned_to"
  = Some PyNone
  /\ jwt_payload_handler (world_with "username") assigned_user
       !! txt "assigned_to"
     = Some (PyDict [(txt "name", PyStr (txt "Bo"));
                     (txt "mobile", PyStr (txt "555"));
                     (txt "email", PyStr (txt "bo@b.com"))])
  /\ jwt_payload_handler (world_with "username") staff_user
       !! txt "assigned_to"
     = None.
Proof.
  split; [|split].
  - refine (proj1 (proj2 (jwt_payload_handler_assigned_to
                            (world_with "username") uuid_user)) _).
    reflexivity.
  - refine (proj1 (jwt_payload_handler_assigned_to
                     (world_with "username") assigned_user)
              {| Assignee.name := PyStr (txt "Bo");
                 Assignee.mobile := PyStr (txt "555");
                 Assignee.email := PyStr (txt "bo@b.com") |} _).
    reflexivity.
  - refine (proj2 (proj2 (jwt_payload_handler_assigned_to
                            (world_with "username") staff_user)) _ _);
      [reflexivity|discriminate].
Defined.

(** A UUID key, username field [username]: [user_id] is the string. *)
Lemma jwt_payload_handler_user_id_run :
  jwt_payload_handler (world_with "username") uuid_user !! txt "user_id"
  = Some (PyStr (txt "123e4567-e89b-12d3-a456-426614174000")).
Proof.
  refine (proj2 (jwt_payload_handler_user_id
                   (world_with "username") uuid_user _)
            0x123e4567e89b12d3a456426614174000 _);
    [discriminate|reflexivity].
Defined.

(** C9 does not hold as stated. A UUID key named [user_id] that is also
    the login field: line 149 replaces the string written by line 147 with
    the username, here the UUID itself, and the [user_id] claim is neither
    a JSON scalar nor the string form of the key. *)
Lemma jwt_payload_handler_user_id_overwritten :
  jwt_payload_handler uuid_login_world uuid_user !! txt "user_id"
  = Some (PyUUID 0x123e4567e89b12d3a456426614174000)
  /\ ~ (forall (w : World) (user : User),
          exists v, jwt_payload_handler w user !! txt "user_id" = Some v
                    /\ json_scalar v = true)
  /\ ~ (forall (w : World) (user : User) (int : N),
          pk user = IdUUID int ->
          jwt_payload_handler w user !! txt "user_id"
          = Some (PyStr (uuid_str int))).
Proof.
  split; [reflexivity|]. split.
  - intros H. destruct (H uuid_login_world uuid_user) as (v & Hv & Hs).
    vm_compute in Hv. injection Hv as <-. discriminate Hs.
  - intros H.
    specialize (H uuid_login_world uuid_user
                  0x123e4567e89b12d3a456426614174000 eq_refl).
    vm_compute in H. discriminate H.
Qed.

(** * Further properties of the credential locator *)

(** ** Words and whitespace *)

Lemma split_from_no_space (s word t : bytes) :
  Forall (fun b => is_space b = false) word ->
  t ∈ split_from word s -> Forall (fun b => is_space b = false) t.
Proof.
  revert word. induction s as [|c s IH]; intros word Hw Ht; simpl in Ht.
  - destruct word; [by apply elem_of_nil in Ht|].
    apply list_elem_of_singleton in Ht. by subst.
  - destruct (is_space c) eqn:Hc.
    + destruct word as [|b word].
      * by apply (IH []).
      * apply elem_of_cons in Ht as [->|Ht]; [done|]. by apply (IH []).
    + apply (IH (word ++ [c])); [|done].
      apply Forall_app. split; [done|]. by constructor.
Qed.

Lemma split_from_skip (ws s : bytes) :
  Forall (fun b => is_space b = true) ws ->
  split_from [] (ws ++ s) = split_from [] s.
Proof.
  induction 1 as [|c ws Hc _ IH]; [done|]. simpl. by rewrite Hc.
Qed.

Lemma split_from_grow (w word s : bytes) :
  Forall (fun b => is_space b = false) w ->
  split_from word (w ++ s) = split_from (word ++ w) s.
Proof.
  intros Hw. revert word. induction Hw as [|c w Hc _ IH]; intros word.
  - by rewrite app_nil_r.
  - simpl. rewrite Hc, IH. by rewrite <- app_assoc.
Qed.

Lemma split_from_close (word ws s : bytes) :
  word <> [] -> ws <> [] ->
  Forall (fun b => is_space b = true) ws ->
  split_from word (ws ++ s) = word :: split_from [] s.
Proof.
  intros Hword Hne Hws. destruct Hws as [|c ws Hc Hws]; [done|].
  simpl. rewrite Hc. destruct word; [done|].
  by rewrite split_from_skip.
Qed.

Lemma split_from_last (word ws : bytes) :
  word <> [] ->
  Forall (fun b => is_space b = true) ws ->
  split_from word ws = [word].
Proof.
  intros Hword Hws. destruct Hws as [|c ws Hc Hws].
  - by destruct word.
  - rewrite <- (app_nil_r (c :: ws)).
    rewrite split_from_close; [|done|done|by constructor]. done.
Qed.

Lemma split_from_pending (word s : bytes) :
  word <> [] -> split_from word s <> [].
Proof.
  revert word. induction s as [|c s IH]; intros word Hword; simpl.
  - by destruct word.
  - destruct (is_space c).
    + by destruct word.
    + apply IH. by destruct word.
Qed.

(** No word at all: the byte string is empty or all whitespace. *)
Lemma bytes_split_nil (raw : bytes) :
  bytes_split raw = [] <-> Forall (fun b => is_space b = true) raw.
Proof.
  unfold bytes_split. split.
  - induction raw as [|c raw IH]; [constructor|]. simpl.
    destruct (is_space c) eqn:Hc.
    + intros H. constructor; [done|]. by apply IH.
    + intros H. by apply split_from_pending in H.
  - intros H. rewrite <- (app_nil_r raw). by rewrite split_from_skip.
Qed.

(** Two words with any whitespace before, between and after. *)
Lemma bytes_split_two (ws0 p ws1 t ws2 : bytes) :
  Forall (fun b => is_space b = true) ws0 ->
  Forall (fun b => is_space b = true) ws1 ->
  Forall (fun b => is_space b = true) ws2 ->
  Forall (fun b => is_space b = false) p ->
  Forall (fun b => is_space b = false) t ->
  p <> [] -> ws1 <> [] -> t <> [] ->
  bytes_split (ws0 ++ p ++ ws1 ++ t ++ ws2) = [p; t].
Proof.
  intros H0 H1 H2 Hp Ht Np N1 Nt. unfold bytes_split.
  rewrite split_from_skip by done.
  rewrite split_from_grow by done. simpl.
  rewrite split_from_close by done.
  rewrite split_from_grow by done. simpl.
  by rewrite split_from_last.
Qed.

(** ** Encoding and decoding *)

Lemma encode_latin1_values (s : text) (b : bytes) :
  encode_latin1 s = Return b -> Byte.to_N <$> b = s.
Proof.
  unfold encode_latin1. destruct (mapM of_N s) as [b'|] eqn:Hm; [|done].
  intros [= ->]. apply mapM_Some in Hm.
  induction Hm as [|c y s b Hc _ IH]; [done|].
  csimpl. rewrite IH. f_equal. by apply to_of_N.
Qed.

Lemma encode_latin1_raises (s : text) :
  (exists b, encode_latin1 s = Return b) \/
  (encode_latin1 s = Raise UnicodeEncodeError /\ Exists (fun c => 255 < c) s).
Proof.
  unfold encode_latin1.
  destruct (mapM of_N s) as [b|] eqn:Hm; [left; by exists b|].
  right. split; [done|].
  apply mapM_None in Hm. apply Exists_exists in Hm as (c & Hin & Hc).
  apply Exists_exists. exists c. split; [done|]. by apply of_N_None_iff.
Qed.

Lemma encode_latin1_out_of_range (s : text) :
  Exists (fun c => 255 < c) s -> encode_latin1 s = Raise UnicodeEncodeError.
Proof.
  intros Hex. destruct (encode_latin1_raises s) as [[b Hb]|[H _]]; [|done].
  apply encode_latin1_values in Hb. subst s.
  apply Exists_exists in Hex as (c & Hin & Hc).
  apply list_elem_of_fmap in Hin as (y & -> & _).
  pose proof (to_N_bounded y). lia.
Qed.

Lemma utf8_decode_ascii (l : list N) :
  Forall (fun c => c < 128) l -> utf8_decode l = Some l.
Proof.
  induction 1 as [|c l Hc _ IH]; [done|]. simpl.
  apply N.ltb_lt in Hc. by rewrite Hc, IH.
Qed.

Lemma byte_lower_value (b : byte) :
  Byte.to_N (byte_lower b)
  = if between 65 90 (Byte.to_N b) then Byte.to_N b + 32 else Byte.to_N b.
Proof.
  unfold byte_lower, between.
  destruct ((65 <=? to_N b) && (to_N b <=? 90)) eqn:Hr; [|done].
  destruct (of_N (to_N b + 32)) as [b'|] eqn:Ho; [by apply to_of_N|].
  apply of_N_None_iff in Ho.
  apply andb_true_iff in Hr as [_ Hr%N.leb_le]. lia.
Qed.

Lemma bytes_lower_values (b : bytes) :
  Byte.to_N <$> bytes_lower b = ascii_lower (Byte.to_N <$> b).
Proof.
  unfold bytes_lower, ascii_lower. rewrite <- !list_fmap_compose.
  apply list_fmap_ext. intros _ x _. simpl. apply byte_lower_value.
Qed.

Lemma ascii_lower_ascii (l : list N) :
  Forall (fun c => c < 128) l -> Forall (fun c => c < 128) (ascii_lower l).
Proof.
  unfold ascii_lower. intros H. apply Forall_fmap.
  eapply Forall_impl; [exact H|]. intros c Hc. simpl.
  unfold between.
  destruct ((65 <=? c) && (c <=? 90)) eqn:Hr; [|done].
  apply andb_true_iff in Hr as [_ Hr%N.leb_le]. lia.
Qed.

Section LocatorOutcomes.
Context `{RT : Runtime}.
Implicit Types (cfg : Settings) (request : Request) (raw : bytes).
Implicit Types (v : strval) (auth : list strval).

Lemma add_sentinel_first cfg auth :
  auth <> [] -> exists a0, add_sentinel cfg auth !! 0%nat = Some a0.
Proof.
  intros Hne. unfold add_sentinel.
  destruct (length (auth_header_prefix cfg) <? 1)%nat.
  - rewrite reverse_app. simpl. by eexists.
  - destruct auth; [done|]. by eexists.
Qed.

Lemma add_sentinel_second cfg auth a1 :
  add_sentinel cfg auth !! 1%nat = Some a1 -> a1 ∈ auth.
Proof.
  unfold add_sentinel.
  destruct (length (auth_header_prefix cfg) <? 1)%nat.
  - rewrite reverse_app. simpl. intros H.
    apply elem_of_reverse. apply list_elem_of_lookup. by exists 0%nat.
  - intros H. apply list_elem_of_lookup. by exists 1%nat.
Qed.

(** What lines 80-92 can do with a token list that has a first element. *)
Lemma check_tokens_outcomes cfg auth a0 :
  auth !! 0%nat = Some a0 ->
  check_tokens cfg auth = Raise DjangoUnicodeDecodeError
  \/ check_tokens cfg auth = Return None
  \/ check_tokens cfg auth
     = Raise (AuthenticationFailed (ugettext msg_no_credentials))
  \/ check_tokens cfg auth
     = Raise (AuthenticationFailed (ugettext msg_spaces))
  \/ exists a1, auth !! 1%nat = Some a1
                /\ check_tokens cfg auth = Return (Some a1).
Proof.
  intros Ha0. unfold check_tokens. rewrite (index_lookup _ _ _ Ha0).
  change (Return a0 ≫= ?k) with (k a0). cbv beta.
  destruct (smart_text (lower a0)) as [first|e] eqn:Hfirst.
  - change (Return first ≫= ?k) with (k first). cbv beta.
    case_bool_decide; [by right; left|].
    destruct (Nat.eqb_spec (length auth) 1); [by right; right; left|].
    destruct (Nat.ltb_spec 2 (length auth)); [by right; right; right; left|].
    destruct auth as [|x [|a1 [|y auth]]]; simpl in *; try done; try lia.
    right; right; right; right. by exists a1.
  - left. destruct a0 as [s|b]; simpl in Hfirst; [done|].
    destruct (bytes_decode_utf8 _); [done|]. by injection Hfirst as <-.
Qed.

Lemma to_bytes_raises v e :
  to_bytes v = Raise e ->
  e = UnicodeEncodeError
  /\ exists s, v = Text s /\ Exists (fun c => 255 < c) s.
Proof.
  destruct v as [s|b]; simpl; [|done].
  destruct (encode_latin1_raises s) as [[b Hb]|[Hr Hex]].
  - by rewrite Hb.
  - rewrite Hr. intros [= <-]. split; [done|]. by exists s.
Qed.

(** X1. On a request whose body and header values are [str] or [bytes],
    as [Request] has them, [get_jwt_value] raises nothing but
    [UnicodeEncodeError], [DjangoUnicodeDecodeError] and
    [AuthenticationFailed] with one of the two messages; in particular
    [auth[0]] and [auth[1]] are always in range. *)
Theorem get_jwt_value_raises cfg request e :
  get_jwt_value cfg request = Raise e ->
  e = UnicodeEncodeError
  \/ e = DjangoUnicodeDecodeError
  \/ e = AuthenticationFailed (ugettext msg_no_credentials)
  \/ e = AuthenticationFailed (ugettext msg_spaces).
Proof.
  unfold get_jwt_value.
  destruct (get_authorization cfg request) as [raw|e'] eqn:Hauth.
  - change (Return raw ≫= ?k) with (k raw). cbv beta zeta.
    destruct (Bytes <$> bytes_split raw) as [|x auth] eqn:Hw.
    + by destruct (cookie_name cfg).
    + destruct (add_sentinel_first cfg (x :: auth)) as [a0 Ha0]; [done|].
      destruct (check_tokens_outcomes cfg _ a0 Ha0)
        as [H|[H|[H|[H|(a1 & _ & H)]]]]; rewrite H; intros [= <-]; auto.
  - intros [= <-]. left.
    unfold get_authorization in Hauth.
    by apply to_bytes_raises in Hauth as [He _].
Qed.

(** X2. A byte string returned by [get_jwt_value] is one of the words of
    the credential: it is not empty and holds no whitespace. *)
Theorem get_jwt_value_token_is_word cfg request (t : bytes) :
  get_jwt_value cfg request = Return (Some (Bytes t)) ->
  exists raw, get_authorization cfg request = Return raw
              /\ t ∈ bytes_split raw
              /\ t <> []
              /\ Forall (fun b => is_space b = false) t.
Proof.
  unfold get_jwt_value.
  destruct (get_authorization cfg request) as [raw|e'] eqn:Hauth; [|done].
  change (Return raw ≫= ?k) with (k raw). cbv beta zeta.
  intros H. exists raw. split; [done|].
  assert (Hin : t ∈ bytes_split raw).
  { destruct (Bytes <$> bytes_split raw) as [|x auth] eqn:Hw.
    - destruct (cookie_name cfg) as [c|]; [|done].
      by destruct (COOKIES request !! c).
    - destruct (add_sentinel_first cfg (x :: auth)) as [a0 Ha0]; [done|].
      destruct (check_tokens_outcomes cfg _ a0 Ha0)
        as [E|[E|[E|[E|(a1 & Ha1 & E)]]]]; rewrite E in H; try done.
      injection H as ->. apply add_sentinel_second in Ha1.
      rewrite <- Hw in Ha1.
      apply list_elem_of_fmap in Ha1 as (t' & [= ->] & Ht'). done. }
  split; [done|]. split.
  - by apply (bytes_split_words raw).
  - by apply (split_from_no_space raw [] t).
Qed.

(** X3. A [str] returned by [get_jwt_value] is the value of the configured
    cookie, and the credential of body and header had no word. *)
Theorem get_jwt_value_text_is_cookie cfg request (s : text) :
  get_jwt_value cfg request = Return (Some (Text s)) ->
  exists c raw, cookie cfg = Some c /\ c <> []
                /\ COOKIES request !! c = Some s
                /\ get_authorization cfg request = Return raw
                /\ bytes_split raw = [].
Proof.
  unfold get_jwt_value.
  destruct (get_authorization cfg request) as [raw|e'] eqn:Hauth; [|done].
  change (Return raw ≫= ?k) with (k raw). cbv beta zeta.
  destruct (bytes_split raw) as [|w ws] eqn:Hw.
  - simpl. unfold cookie_name.
    destruct (cookie cfg) as [[|c0 c]|] eqn:Hc; [done| |done].
    destruct (COOKIES request !! (c0 :: c)) as [s'|] eqn:Hs; [|done].
    intros [= <-]. by exists (c0 :: c), raw.
  - intros H. exfalso.
    change (Bytes <$> w :: ws) with (Bytes w :: (Bytes <$> ws)) in H.
    cbv iota in H.
    destruct (add_sentinel_first cfg (Bytes w :: (Bytes <$> ws)))
      as [a0 Ha0]; [done|].
    destruct (check_tokens_outcomes cfg _ a0 Ha0)
      as [E|[E|[E|[E|(a1 & Ha1 & E)]]]]; rewrite E in H; try done.
    injection H as ->. apply add_sentinel_second in Ha1.
    change (Bytes w :: (Bytes <$> ws)) with (Bytes <$> (w :: ws)) in Ha1.
    by apply list_elem_of_fmap in Ha1 as (t' & [=] & _).
Qed.

End LocatorOutcomes.

Section LocatorComposition.
Context `{RT : Runtime}.
Implicit Types (cfg : Settings) (request : Request) (raw : bytes).
Implicit Types (v : strval) (auth : list strval).

Lemma get_jwt_value_return_not_encode_error cfg request raw :
  get_authorization cfg request = Return raw ->
  get_jwt_value cfg request <> Raise UnicodeEncodeError.
Proof.
  intros Hauth. unfold get_jwt_value. rewrite Hauth.
  change (Return raw ≫= ?k) with (k raw). cbv beta zeta.
  destruct (Bytes <$> bytes_split raw) as [|x auth] eqn:Hw.
  - by destruct (cookie_name cfg).
  - destruct (add_sentinel_first cfg (x :: auth)) as [a0 Ha0]; [done|].
    destruct (check_tokens_outcomes cfg _ a0 Ha0)
      as [H|[H|[H|[H|(a1 & _ & H)]]]]; by rewrite H.
Qed.

(** X4. [get_jwt_value] raises [UnicodeEncodeError] exactly when the value
    selected on line 44 is a [str] with a code point above 255; the cookie
    is not consulted then. *)
Theorem get_jwt_value_encode_error cfg request :
  get_jwt_value cfg request = Raise UnicodeEncodeError
  <-> exists s, raw_authorization cfg request = Text s
                /\ Exists (fun c => 255 < c) s.
Proof.
  split.
  - intros H.
    destruct (get_authorization cfg request) as [raw|e] eqn:Hauth.
    + by apply get_jwt_value_return_not_encode_error in Hauth.
    + unfold get_authorization in Hauth.
      by apply to_bytes_raises in Hauth as [_ ?].
  - intros (s & Hs & Hex). unfold get_jwt_value, get_authorization.
    rewrite Hs. simpl. by rewrite encode_latin1_out_of_range.
Qed.

(** X5. A body value that is not empty but holds only whitespace hides the
    header: the request is treated as one with no credential in body or
    header, and only the cookie can answer. *)
Theorem get_jwt_value_blank_body cfg request v raw :
  data request !! key cfg = Some v ->
  truthy v = true ->
  to_bytes v = Return raw ->
  Forall (fun b => is_space b = true) raw ->
  get_jwt_value cfg request
  = get_jwt_value cfg {| data := ∅; META := ∅; COOKIES := COOKIES request |}.
Proof.
  intros Hv Ht Hraw Hws.
  assert (Hl : get_jwt_value cfg request
               = match cookie_name cfg with
                 | Some c => Return (Text <$> COOKIES request !! c)
                 | None => Return None
                 end).
  { unfold get_jwt_value, get_authorization.
    rewrite (raw_authorization_body _ _ v Hv Ht), Hraw.
    change (Return raw ≫= ?k) with (k raw). cbv beta zeta.
    apply bytes_split_nil in Hws. by rewrite Hws. }
  rewrite Hl. unfold get_jwt_value, get_authorization, raw_authorization.
  unfold dict_get. simpl. by rewrite !lookup_empty.
Qed.

Lemma smart_text_lower_ascii (p : bytes) :
  Forall (fun b => Byte.to_N b < 128) p ->
  smart_text (lower (Bytes p)) = Return (ascii_lower (Byte.to_N <$> p)).
Proof.
  intros Hp. simpl. unfold bytes_decode_utf8.
  rewrite bytes_lower_values, utf8_decode_ascii; [done|].
  apply ascii_lower_ascii. by apply Forall_fmap.
Qed.

(** X6. When the body holds no value (or an empty one) and the header holds
    an ASCII prefix word and a token, with any whitespace before and after
    and at least one whitespace octet between, and the prefix word equals
    the configured prefix up to letter case, [get_jwt_value] returns the
    token as it was sent. *)
Theorem get_jwt_value_header_credential cfg request hv
    (ws0 p ws1 t ws2 : bytes) :
  (data request !! key cfg = None
   \/ exists v, data request !! key cfg = Some v /\ truthy v = false) ->
  META request !! (txt "HTTP_" ++ str_upper (key cfg)) = Some hv ->
  to_bytes hv = Return (ws0 ++ p ++ ws1 ++ t ++ ws2) ->
  Forall (fun b => is_space b = true) ws0 ->
  Forall (fun b => is_space b = true) ws1 ->
  Forall (fun b => is_space b = true) ws2 ->
  Forall (fun b => is_space b = false) p ->
  Forall (fun b => is_space b = false) t ->
  p <> [] -> ws1 <> [] -> t <> [] ->
  Forall (fun b => Byte.to_N b < 128) p ->
  ascii_lower (Byte.to_N <$> p) = str_lower (prefix cfg) ->
  get_jwt_value cfg request = Return (Some (Bytes t)).
Proof.
  intros Hbody Hmeta Hraw H0 H1 H2 Hp Ht Np N1 Nt Hascii Hlow.
  assert (Hauth : get_authorization cfg request
                  = Return (ws0 ++ p ++ ws1 ++ t ++ ws2)).
  { unfold get_authorization.
    rewrite raw_authorization_header by done.
    unfold dict_get. by rewrite Hmeta. }
  pose proof (bytes_split_two _ _ _ _ _ H0 H1 H2 Hp Ht Np N1 Nt) as Hsplit.
  pose proof (smart_text_lower_ascii p Hascii) as Hfirst.
  rewrite Hlow, <- auth_header_prefix_lower in Hfirst.
  pose proof (smart_text_lower_bytes_nonempty _ _ Np Hfirst) as Hpre.
  rewrite (get_jwt_value_nonempty _ _ _ Hauth) by (by rewrite Hsplit).
  unfold tokens. rewrite add_sentinel_with_prefix, Hsplit by done.
  rewrite check_tokens_matching; [done|]. by exists (Bytes p).
Qed.

(** X7. As soon as the credential of body or header has a word, neither the
    configured cookie name nor the cookies of the request have any effect
    on the result. *)
Theorem get_jwt_value_cookie_unused cfg request raw
    (c : option text) (cookies : gmap text text) :
  get_authorization cfg request = Return raw ->
  bytes_split raw <> [] ->
  get_jwt_value {| key := key cfg; prefix := prefix cfg; cookie := c |}
                {| data := data request; META := META request;
                   COOKIES := cookies |}
  = get_jwt_value cfg request.
Proof.
  intros Hauth Hne.
  rewrite (get_jwt_value_nonempty cfg request raw Hauth Hne).
  by rewrite (get_jwt_value_nonempty _ _ raw) by done.
Qed.

(** X8. The byte string handed to line 68 holds the code points of a
    [str] credential octet for octet, and a [bytes] credential as it is. *)
Theorem get_authorization_octets cfg request raw :
  get_authorization cfg request = Return raw ->
  match raw_authorization cfg request with
  | Text s => Byte.to_N <$> raw = s /\ Forall (fun c => c <= 255) s
  | Bytes b => raw = b
  end.
Proof.
  unfold get_authorization. cbv zeta.
  destruct (raw_authorization cfg request) as [s|b]; simpl.
  - intros H%encode_latin1_values. split; [done|]. subst s.
    apply Forall_fmap. apply Forall_forall. intros y _. simpl.
    apply to_N_bounded.
  - by intros [= ->].
Qed.

End LocatorComposition.

Section LocatorDecoding.
Context `{RT : Runtime}.
Implicit Types (cfg : Settings) (request : Request) (raw : bytes).

(** X16. Only the first word is decoded, and only for a non-empty prefix:
    [get_jwt_value] raises [DjangoUnicodeDecodeError] exactly when the
    configured prefix is not empty and the first word, lower-cased, is not
    valid UTF-8. The token itself is never decoded. *)
Theorem get_jwt_value_decode_error cfg request raw (t0 : bytes)
    (rest : list bytes) :
  get_authorization cfg request = Return raw ->
  bytes_split raw = t0 :: rest ->
  get_jwt_value cfg request = Raise DjangoUnicodeDecodeError
  <-> str_lower (prefix cfg) <> []
      /\ bytes_decode_utf8 (bytes_lower t0) = None.
Proof.
  intros Hauth Hsplit.
  rewrite (get_jwt_value_nonempty _ _ raw Hauth) by (by rewrite Hsplit).
  rewrite <- auth_header_prefix_lower.
  unfold tokens, add_sentinel. rewrite Hsplit.
  destruct (auth_header_prefix cfg) as [|c p] eqn:Hp.
  - change (length [] <? 1)%nat with true. cbv iota.
    rewrite reverse_app.
    change (reverse [Text []]) with [Text []]. cbn [app].
    rewrite check_tokens_matching.
    + split; [|by intros [? _]].
      repeat case_match; try done.
      unfold index. by case_match.
    + exists (Text []). split; [done|].
      cbn [lower smart_text]. by rewrite str_lower_empty, Hp.
  - change (length (c :: p) <? 1)%nat with false. cbv iota.
    unfold check_tokens.
    change (index ((Bytes <$> t0 :: rest)) 0) with (Return (Bytes t0)).
    change (Return (Bytes t0) ≫= ?k) with (k (Bytes t0)). cbv beta.
    cbn [lower smart_text].
    destruct (bytes_decode_utf8 (bytes_lower t0)) as [s|] eqn:Hd.
    + change (Return s ≫= ?k) with (k s). cbv beta.
      split; [|by intros [_ ?]].
      repeat case_match; try done.
      unfold index. by case_match.
    + split; [done|]. intros _. reflexivity.
Qed.

End LocatorDecoding.

(** * Further properties of the payload builder *)

Section PayloadContents.
Variable w : World.
Variable user : User.

Local Ltac key_ne :=
  let H := fresh in intros H; vm_compute in H; discriminate H.

Local Ltac side :=
  first [assumption | by apply not_eq_sym | key_ne].

Lemma set_if_has_lookup_eq (k : text) (a : option pyval)
    (payload : gmap text pyval) :
  set_if_has k a payload !! k
  = match a with Some v => Some v | None => payload !! k end.
Proof. destruct a; simpl; [apply lookup_insert_eq|done]. Qed.

(** The handler as a sequence of writes, each of them optional but the
    first three and the username claim. *)
Lemma jwt_payload_handler_writes :
  jwt_payload_handler w user
  = set_if_has (txt "iss") (JWT_ISSUER (api_settings w))
    (set_if_has (txt "aud") (JWT_AUDIENCE (api_settings w))
    (set_if_has (txt "orig_iat")
       (if JWT_ALLOW_REFRESH (api_settings w)
        then Some (PyInt (utcnow w 1 / 1000000)%Z) else None)
    (set_if_has (txt "assigned_to")
       (match assigned_to user with
        | Some (ModelInstance a) =>
          Some (PyDict [(txt "name", Assignee.name a);
                        (txt "mobile", Assignee.mobile a);
                        (txt "email", Assignee.email a)])
        | Some Null => Some PyNone
        | None => None
        end)
    (set_if_has (txt "organization") (organization user)
    (<[get_username_field w := get_username w user]>
    (set_if_has (txt "user_id")
       (match pk user with
        | IdUUID int => Some (PyStr (uuid_str int))
        | _ => None
        end)
    (set_if_has (txt "name") (name user)
    (set_if_has (txt "mobile") (mobile user)
    (set_if_has (txt "email") (email user)
    (<[txt "exp" :=
         PyDatetime (utcnow w 0 + JWT_EXPIRATION_DELTA (api_settings w))%Z]>
    (<[txt "is_admin" := PyBool (is_staff user)]>
    (<[txt "user_id" := id_value (pk user)]> ∅)))))))))))).
Proof.
  unfold jwt_payload_handler. cbv zeta.
  destruct (JWT_ALLOW_REFRESH (api_settings w)),
    (assigned_to user) as [[|a]|], (pk user); reflexivity.
Qed.

Local Ltac through :=
  repeat first
    [ rewrite set_if_has_lookup_ne by side
    | rewrite lookup_insert_ne by side ].

(** The names of all the claims the handler can write. *)
Lemma jwt_payload_handler_other_key (k : text) :
  txt "user_id" <> k -> txt "is_admin" <> k -> txt "exp" <> k ->
  txt "email" <> k -> txt "mobile" <> k -> txt "name" <> k ->
  get_username_field w <> k -> txt "organization" <> k ->
  txt "assigned_to" <> k -> txt "orig_iat" <> k -> txt "aud" <> k ->
  txt "iss" <> k ->
  jwt_payload_handler w user !! k = None.
Proof.
  intros. rewrite jwt_payload_handler_writes.
  repeat first
    [ rewrite set_if_has_lookup_ne by assumption
    | rewrite lookup_insert_ne by assumption ].
  apply lookup_empty.
Qed.

(** X9. The payload has no claim besides [user_id], [is_admin], [exp],
    [email], [mobile], [name], the username field, [organization],
    [assigned_to], [orig_iat], [aud] and [iss]. *)
Theorem jwt_payload_handler_keys :
  dom (jwt_payload_handler w user)
  ⊆ ({[txt "user_id"; txt "is_admin"; txt "exp"; txt "email"; txt "mobile";
       txt "name"; get_username_field w; txt "organization";
       txt "assigned_to"; txt "orig_iat"; txt "aud"; txt "iss"]}
     : gset text).
Proof.
  intros k Hk. apply elem_of_dom in Hk.
  destruct (decide (k ∈ ({[txt "user_id"; txt "is_admin"; txt "exp";
       txt "email"; txt "mobile";
       txt "name"; get_username_field w; txt "organization";
       txt "assigned_to"; txt "orig_iat"; txt "aud"; txt "iss"]}
     : gset text))) as [|Hn]; [done|].
  rewrite !not_elem_of_union, !not_elem_of_singleton in Hn.
  destruct Hn as [[[[[[[[[[[? ?] ?] ?] ?] ?] ?] ?] ?] ?] ?] ?].
  rewrite jwt_payload_handler_other_key in Hk by (by apply not_eq_sym).
  by destruct Hk.
Qed.

(** X10. [email], [mobile] and [name] are copied as they are when the user
    has them, an empty value included, and are not written otherwise (this
    for a username field with another name); [organization] is written after
    the username claim and is copied whatever the username field is. *)
Theorem jwt_payload_handler_optional :
  (get_username_field w <> txt "email" ->
     jwt_payload_handler w user !! txt "email" = email user)
  /\ (get_username_field w <> txt "mobile" ->
     jwt_payload_handler w user !! txt "mobile" = mobile user)
  /\ (get_username_field w <> txt "name" ->
     jwt_payload_handler w user !! txt "name" = name user)
  /\ (forall o, organization user = Some o ->
     jwt_payload_handler w user !! txt "organization" = Some o)
  /\ (organization user = None ->
     get_username_field w <> txt "organization" ->
     jwt_payload_handler w user !! txt "organization" = None).
Proof.
  rewrite jwt_payload_handler_writes.
  split; [|split; [|split; [|split]]].
  - intros Hf. through. rewrite set_if_has_lookup_eq. through.
    rewrite lookup_empty. by destruct (email user).
  - intros Hf. through. rewrite set_if_has_lookup_eq. through.
    rewrite lookup_empty. by destruct (mobile user).
  - intros Hf. through. rewrite set_if_has_lookup_eq. through.
    rewrite lookup_empty. by destruct (name user).
  - intros o ->. through. by rewrite set_if_has_lookup_eq.
  - intros -> Hf. through. rewrite set_if_has_lookup_eq. through.
    apply lookup_empty.
Qed.

(** X11. The username claim holds the username unless a claim written
    later has the same name; it replaces [user_id], [is_admin], [exp],
    [email], [mobile] or [name] when the username field has one of these
    names. *)
Theorem jwt_payload_handler_username :
  get_username_field w <> txt "organization" ->
  get_username_field w <> txt "assigned_to" ->
  get_username_field w <> txt "orig_iat" ->
  get_username_field w <> txt "aud" ->
  get_username_field w <> txt "iss" ->
  jwt_payload_handler w user !! get_username_field w
  = Some (get_username w user).
Proof.
  intros. rewrite jwt_payload_handler_writes.
  rewrite !set_if_has_lookup_ne by (by apply not_eq_sym).
  apply lookup_insert_eq.
Qed.

(** X12. The claims of the settings are written last and hold whatever the
    username field is: [orig_iat] is the second clock reading in whole
    seconds when refresh is allowed, [aud] and [iss] are the configured
    values. A setting that is off writes nothing. *)
Theorem jwt_payload_handler_settings :
  (JWT_ALLOW_REFRESH (api_settings w) = true ->
     jwt_payload_handler w user !! txt "orig_iat"
     = Some (PyInt (utcnow w 1 / 1000000)%Z))
  /\ (forall a, JWT_AUDIENCE (api_settings w) = Some a ->
     jwt_payload_handler w user !! txt "aud" = Some a)
  /\ (forall i, JWT_ISSUER (api_settings w) = Some i ->
     jwt_payload_handler w user !! txt "iss" = Some i)
  /\ (JWT_ALLOW_REFRESH (api_settings w) = false ->
      get_username_field w <> txt "orig_iat" ->
      jwt_payload_handler w user !! txt "orig_iat" = None)
  /\ (JWT_AUDIENCE (api_settings w) = None ->
      get_username_field w <> txt "aud" ->
      jwt_payload_handler w user !! txt "aud" = None)
  /\ (JWT_ISSUER (api_settings w) = None ->
      get_username_field w <> txt "iss" ->
      jwt_payload_handler w user !! txt "iss" = None).
Proof.
  rewrite jwt_payload_handler_writes.
  split; [|split; [|split; [|split; [|split]]]].
  - intros ->. through. by rewrite set_if_has_lookup_eq.
  - intros a ->. through. by rewrite set_if_has_lookup_eq.
  - intros i ->. by rewrite set_if_has_lookup_eq.
  - intros -> Hf. through. rewrite set_if_has_lookup_eq. through.
    apply lookup_empty.
  - intros -> Hf. through. rewrite set_if_has_lookup_eq. through.
    apply lookup_empty.
  - intros -> Hf. rewrite set_if_has_lookup_eq. through.
    apply lookup_empty.
Qed.

(** X13. For a username field with another name, [exp] is the first clock
    reading plus the configured delta, [is_admin] is the staff flag, and an
    integer or string key is the [user_id] claim as it is. *)
Theorem jwt_payload_handler_fixed :
  (get_username_field w <> txt "exp" ->
     jwt_payload_handler w user !! txt "exp"
     = Some (PyDatetime
               (utcnow w 0 + JWT_EXPIRATION_DELTA (api_settings w))%Z))
  /\ (get_username_field w <> txt "is_admin" ->
     jwt_payload_handler w user !! txt "is_admin"
     = Some (PyBool (is_staff user)))
  /\ (get_username_field w <> txt "user_id" ->
     (forall z, pk user = IdInt z ->
        jwt_payload_handler w user !! txt "user_id" = Some (PyInt z))
     /\ (forall s, pk user = IdStr s ->
        jwt_payload_handler w user !! txt "user_id" = Some (PyStr s))).
Proof.
  rewrite jwt_payload_handler_writes.
  split; [|split; [|split]].
  - intros Hf. through. apply lookup_insert_eq.
  - intros Hf. through. apply lookup_insert_eq.
  - intros z ->. through. rewrite set_if_has_lookup_eq. through.
    apply lookup_insert_eq.
  - intros s ->. through. rewrite set_if_has_lookup_eq. through.
    apply lookup_insert_eq.
Qed.

End PayloadContents.

(** ** The string form of a UUID key *)

Lemma hex_digits_length (width : nat) (n : N) :
  length (hex_digits width n) = width.
Proof.
  revert n. induction width as [|width IH]; intros n; [done|].
  cbn [hex_digits]. rewrite length_app, IH. cbn [length]. lia.
Qed.

Lemma hex_digit_range (d : N) :
  d < 16 ->
  48 <= hex_digit d <= 57 \/ 97 <= hex_digit d <= 102.
Proof.
  intros Hd. unfold hex_digit. destruct (N.ltb_spec d 10); lia.
Qed.

Lemma hex_digit_inj (d1 d2 : N) :
  d1 < 16 -> d2 < 16 -> hex_digit d1 = hex_digit d2 -> d1 = d2.
Proof.
  unfold hex_digit. intros H1 H2.
  destruct (N.ltb_spec d1 10), (N.ltb_spec d2 10); lia.
Qed.

Lemma hex_digits_chars (width : nat) (n : N) :
  Forall (fun c => 48 <= c <= 57 \/ 97 <= c <= 102) (hex_digits width n).
Proof.
  revert n. induction width as [|width IH]; intros n; [constructor|].
  cbn [hex_digits]. apply Forall_app. split; [apply IH|].
  constructor; [|constructor]. apply hex_digit_range.
  apply N.mod_upper_bound. lia.
Qed.

Lemma hex_digits_inj (width : nat) (a b : N) :
  hex_digits width a = hex_digits width b ->
  a mod 16 ^ N.of_nat width = b mod 16 ^ N.of_nat width.
Proof.
  revert a b. induction width as [|width IH]; intros a b H.
  - change (16 ^ N.of_nat 0) with 1. by rewrite !N.mod_1_r.
  - cbn [hex_digits] in H. apply app_inj_2 in H as [Hhi Hlo]; [|done].
    injection Hlo as Hlo.
    apply hex_digit_inj in Hlo; [|apply N.mod_upper_bound; lia..].
    apply IH in Hhi.
    rewrite Nat2N.inj_succ, N.pow_succ_r'.
    rewrite !N.Div0.mod_mul_r. by rewrite Hlo, Hhi.
Qed.

(** Cutting thirty-two digits 8-4-4-4-12 and reading them back. *)
Lemma dashed_digits (h : text) :
  length h = 32%nat ->
  let s := take 8 h ++ txt "-" ++ take 4 (drop 8 h) ++ txt "-"
             ++ take 4 (drop 12 h) ++ txt "-" ++ take 4 (drop 16 h)
             ++ txt "-" ++ drop 20 h in
  take 8 s ++ take 4 (drop 9 s) ++ take 4 (drop 14 s)
    ++ take 4 (drop 19 s) ++ drop 24 s = h
  /\ length s = 36%nat
  /\ s !! 8%nat = Some 45 /\ s !! 13%nat = Some 45
  /\ s !! 18%nat = Some 45 /\ s !! 23%nat = Some 45.
Proof.
  intros H.
  do 32 (destruct h as [|? h]; [discriminate H|];
         cbn [length] in H; apply Nat.succ_inj in H).
  destruct h; [|discriminate H].
  cbv zeta. repeat split; reflexivity.
Qed.

(** The characters of the cut string, position by position. *)
Lemma dashed_positions (P : N -> Prop) (h : text) :
  length h = 32%nat ->
  Forall P h ->
  let s := take 8 h ++ txt "-" ++ take 4 (drop 8 h) ++ txt "-"
             ++ take 4 (drop 12 h) ++ txt "-" ++ take 4 (drop 16 h)
             ++ txt "-" ++ drop 20 h in
  forall (i : nat) (c : N), s !! i = Some c ->
    if bool_decide (i = 8 \/ i = 13 \/ i = 18 \/ i = 23)%nat
    then c = 45 else P c.
Proof.
  intros H Hall.
  do 32 (destruct h as [|? h]; [discriminate H|];
         cbn [length] in H; apply Nat.succ_inj in H).
  destruct h; [|discriminate H].
  repeat match goal with
         | Hf : Forall _ (_ :: _) |- _ => apply Forall_cons in Hf as [? Hf]
         end.
  cbv zeta. intros i c.
  do 36 (destruct i as [|i];
         [intros [= <-]; first [reflexivity | assumption]|]).
  intros Hi. discriminate Hi.
Qed.

Lemma uuid_str_inj (a b : N) :
  a < 2 ^ 128 -> b < 2 ^ 128 -> uuid_str a = uuid_str b -> a = b.
Proof.
  intros Ha Hb H.
  pose proof (dashed_digits (hex_digits 32 a) (hex_digits_length _ _))
    as [Ea _].
  pose proof (dashed_digits (hex_digits 32 b) (hex_digits_length _ _))
    as [Eb _].
  unfold uuid_str in H. cbv zeta in H. rewrite H in Ea.
  rewrite Eb in Ea. apply hex_digits_inj in Ea.
  change (16 ^ N.of_nat 32) with (2 ^ 128) in Ea.
  by rewrite !N.mod_small in Ea by done.
Qed.

(** X14. For a user whose key is a UUID (and a username field not named
    [user_id]) the [user_id] claim is a string of 36 characters: a dash at
    each of the positions 8, 13, 18 and 23, and a lower-case hexadecimal
    digit at every other position. *)
Theorem jwt_payload_handler_uuid_format (w : World) (user : User) (int : N) :
  pk user = IdUUID int ->
  get_username_field w <> txt "user_id" ->
  exists s, jwt_payload_handler w user !! txt "user_id" = Some (PyStr s)
    /\ length s = 36%nat
    /\ forall (i : nat) (c : N), s !! i = Some c ->
         if bool_decide (i = 8 \/ i = 13 \/ i = 18 \/ i = 23)%nat
         then c = 45
         else 48 <= c <= 57 \/ 97 <= c <= 102.
Proof.
  intros Hpk Hf. exists (uuid_str int).
  rewrite jwt_payload_handler_user_id_lookup, Hpk by done.
  split; [done|].
  pose proof (dashed_digits (hex_digits 32 int) (hex_digits_length _ _))
    as (_ & Hl & _).
  split; [exact Hl|].
  exact (dashed_positions _ (hex_digits 32 int) (hex_digits_length _ _)
           (hex_digits_chars _ _)).
Qed.

(** X15. Users with different UUID keys get different [user_id] claims
    (UUIDs are 128-bit numbers). *)
Theorem jwt_payload_handler_uuid_injective (w1 w2 : World) (u1 u2 : User)
    (a b : N) :
  pk u1 = IdUUID a -> pk u2 = IdUUID b ->
  a < 2 ^ 128 -> b < 2 ^ 128 ->
  get_username_field w1 <> txt "user_id" ->
  get_username_field w2 <> txt "user_id" ->
  jwt_payload_handler w1 u1 !! txt "user_id"
  = jwt_payload_handler w2 u2 !! txt "user_id" ->
  a = b.
Proof.
  intros Hp1 Hp2 Ha Hb Hf1 Hf2.
  rewrite !jwt_payload_handler_user_id_lookup, Hp1, Hp2 by done.
  cbn [user_id_claim]. intros H.
  apply uuid_str_inj; [assumption..|]. congruence.
Qed.

(** * More runs on the sample inputs *)

Lemma get_jwt_value_raises_run :
  AuthenticationFailed msg_no_credentials = UnicodeEncodeError
  \/ AuthenticationFailed msg_no_credentials = DjangoUnicodeDecodeError
  \/ AuthenticationFailed msg_no_credentials
     = AuthenticationFailed msg_no_credentials
  \/ AuthenticationFailed msg_no_credentials
     = AuthenticationFailed msg_spaces.
Proof.
  refine (get_jwt_value_raises (RT := ascii_runtime) jwt_settings
            prefix_only_request _ _).
  reflexivity.
Defined.

Lemma get_jwt_value_token_is_word_run :
  exists raw,
    get_authorization (RT := ascii_runtime) jwt_settings body_request
    = Return raw
    /\ lit "abc123" ∈ bytes_split raw
    /\ lit "abc123" <> []
    /\ Forall (fun b => is_space b = false) (lit "abc123").
Proof.
  refine (get_jwt_value_token_is_word (RT := ascii_runtime) jwt_settings
            body_request (lit "abc123") _).
  reflexivity.
Defined.

Lemma get_jwt_value_text_is_cookie_run :
  exists c raw,
    cookie cookie_settings = Some c /\ c <> []
    /\ COOKIES cookie_request !! c = Some (txt "tok")
    /\ get_authorization (RT := ascii_runtime) cookie_settings cookie_request
       = Return raw
    /\ bytes_split raw = [].
Proof.
  refine (get_jwt_value_text_is_cookie (RT := ascii_runtime) cookie_settings
            cookie_request (txt "tok") _).
  reflexivity.
Defined.

(** Prefix [JWT], header [JWT] followed by a euro sign. *)
Lemma get_jwt_value_encode_error_run :
  get_jwt_value (RT := ascii_runtime) cookie_settings euro_request
  = Raise UnicodeEncodeError.
Proof.
  refine (proj2 (get_jwt_value_encode_error (RT := ascii_runtime)
                   cookie_settings euro_request) _).
  exists (txt "JWT " ++ [8364]). split; [reflexivity|].
  apply Exists_exists. exists 8364. split; [|reflexivity].
  apply list_elem_of_In. simpl. tauto.
Defined.

(** A blank body value: the well-formed header is not read, the cookie
    answers. *)
Lemma get_jwt_value_blank_body_run :
  get_jwt_value (RT := ascii_runtime) cookie_settings blank_body_request
  = Return (Some (Text (txt "tok"))).
Proof.
  refine (eq_trans
            (get_jwt_value_blank_body (RT := ascii_runtime) cookie_settings
               blank_body_request (Text (txt "  ")) (lit "  ") _ _ _ _) _);
    try reflexivity.
  repeat constructor.
Defined.

(** Prefix [JWT], header [" jwt  AbC123 "]: the token is [AbC123]. *)
Lemma get_jwt_value_header_credential_run :
  get_jwt_value (RT := ascii_runtime) jwt_settings padded_request
  = Return (Some (Bytes (lit "AbC123"))).
Proof.
  refine (get_jwt_value_header_credential (RT := ascii_runtime) jwt_settings
            padded_request (Text (txt " jwt  AbC123 "))
            (lit " ") (lit "jwt") (lit "  ") (lit "AbC123") (lit " ")
            _ _ _ _ _ _ _ _ _ _ _ _ _);
    try reflexivity; try discriminate; repeat constructor.
Defined.

(** Prefix [JWT], header [Bearer abc123]: [None], cookie or no cookie. *)
Lemma get_jwt_value_cookie_unused_run :
  get_jwt_value (RT := ascii_runtime) cookie_settings bearer_cookie_request
  = Return None.
Proof.
  refine (eq_trans
            (get_jwt_value_cookie_unused (RT := ascii_runtime) jwt_settings
               bearer_request (lit "Bearer abc123")
               (Some (txt "jwt")) (COOKIES bearer_cookie_request) _ _) _);
    try reflexivity.
  discriminate.
Defined.

Lemma get_authorization_octets_run :
  Byte.to_N <$> lit "JWT abc123" = txt "JWT abc123"
  /\ Forall (fun c => c <= 255) (txt "JWT abc123").
Proof.
  refine (get_authorization_octets (RT := ascii_runtime) jwt_settings
            body_request (lit "JWT abc123") _).
  reflexivity.
Defined.

Lemma jwt_payload_handler_optional_run :
  jwt_payload_handler (world_with "username") staff_user !! txt "email"
  = Some (PyStr (txt "a@b.com"))
  /\ jwt_payload_handler (world_with "username") staff_user !! txt "mobile"
     = None.
Proof.
  split.
  - refine (proj1 (jwt_payload_handler_optional
                     (world_with "username") staff_user) _).
    discriminate.
  - refine (proj1 (proj2 (jwt_payload_handler_optional
                            (world_with "username") staff_user)) _).
    discriminate.
Defined.

(** Username field [email]: the [email] claim is the username. *)
Lemma jwt_payload_handler_username_run :
  jwt_payload_handler (world_with "email") staff_user !! txt "email"
  = Some (PyStr (txt "alice")).
Proof.
  refine (jwt_payload_handler_username (world_with "email") staff_user
            _ _ _ _ _);
    discriminate.
Defined.

Lemma jwt_payload_handler_settings_run :
  jwt_payload_handler full_world staff_user !! txt "orig_iat"
  = Some (PyInt 1000)
  /\ jwt_payload_handler full_world staff_user !! txt "aud"
     = Some (PyStr (txt "api"))
  /\ jwt_payload_handler full_world staff_user !! txt "iss"
     = Some (PyStr (txt "auth"))
  /\ jwt_payload_handler (world_with "username") staff_user !! txt "iss"
     = None.
Proof.
  split; [|split; [|split]].
  - refine (proj1 (jwt_payload_handler_settings full_world staff_user) _).
    reflexivity.
  - refine (proj1 (proj2 (jwt_payload_handler_settings
                            full_world staff_user)) _ _).
    reflexivity.
  - refine (proj1 (proj2 (proj2 (jwt_payload_handler_settings
                                   full_world staff_user))) _ _).
    reflexivity.
  - refine (proj2 (proj2 (proj2 (proj2 (proj2
              (jwt_payload_handler_settings
                 (world_with "username") staff_user))))) _ _).
    + reflexivity.
    + discriminate.
Defined.

Lemma jwt_payload_handler_fixed_run :
  jwt_payload_handler (world_with "username") staff_user !! txt "exp"
  = Some (PyDatetime 1300000000)
  /\ jwt_payload_handler (world_with "username") staff_user !! txt "user_id"
     = Some (PyInt 42).
Proof.
  split.
  - refine (proj1 (jwt_payload_handler_fixed
                     (world_with "username") staff_user) _).
    discriminate.
  - refine (proj1 (proj2 (proj2 (jwt_payload_handler_fixed
                                   (world_with "username") staff_user)) _)
              42%Z _).
    + discriminate.
    + reflexivity.
Defined.

Lemma jwt_payload_handler_uuid_format_run :
  exists s,
    jwt_payload_handler (world_with "username") uuid_user !! txt "user_id"
    = Some (PyStr s)
    /\ length s = 36%nat
    /\ forall (i : nat) (c : N), s !! i = Some c ->
         if bool_decide (i = 8 \/ i = 13 \/ i = 18 \/ i = 23)%nat
         then c = 45
         else 48 <= c <= 57 \/ 97 <= c <= 102.
Proof.
  refine (jwt_payload_handler_uuid_format (world_with "username") uuid_user
            0x123e4567e89b12d3a456426614174000 _ _).
  - reflexivity.
  - discriminate.
Defined.

Lemma jwt_payload_handler_uuid_injective_run :
  0x123e4567e89b12d3a456426614174000 = 0x123e4567e89b12d3a456426614174000.
Proof.
  refine (jwt_payload_handler_uuid_injective
            (world_with "username") full_world uuid_user uuid_user
            _ _ _ _ _ _ _ _ _);
    try reflexivity; discriminate.
Defined.

(** Prefix [JWT], header octets FF 20 61: the first word cannot be read. *)
Lemma get_jwt_value_decode_error_run :
  get_jwt_value (RT := ascii_runtime) jwt_settings latin1_request
  = Raise DjangoUnicodeDecodeError.
Proof.
  refine (proj2 (get_jwt_value_decode_error (RT := ascii_runtime)
                   jwt_settings latin1_request [xff; x20; x61] [xff] [[x61]]
                   _ _) _);
    try reflexivity.
  split; [discriminate|reflexivity].
Defined.
